(** * Formula 1 scrapers: circuits table and race results

    A shallow embedding of [web_scraping_cirquits.py] and
    [web_scraping_winners.py].  Python [str] values are byte strings
    (ASCII range for case and whitespace), a parsed page is a tree of
    elements and text nodes as BeautifulSoup exposes it, a pandas
    DataFrame is an ordered list of labelled columns over an implicit
    0..n-1 index, and the Selenium session is an explicit state with an
    event log. *)

From Stdlib Require Import List String Ascii ZArith Lia Bool Arith PeanoNat.
From Stdlib Require Import DecimalString.
Import ListNotations.
Set Warnings "-register-all,-notation-for-abbreviation".
Local Open Scope string_scope.
Local Open Scope list_scope.
Local Open Scope nat_scope.

(* ================================================================== *)
(** ** Python strings *)

Module PyStr.

(** [str.isspace] on the ASCII range: TAB..CR, FS..US and SPACE. *)
Definition isspace (c : ascii) : bool :=
  let n := nat_of_ascii c in
  ((9 <=? n) && (n <=? 13)) || ((28 <=? n) && (n <=? 31)) || (n =? 32).

Fixpoint lstrip (s : string) : string :=
  match s with
  | EmptyString => EmptyString
  | String c s' => if isspace c then lstrip s' else s
  end.

Fixpoint rstrip (s : string) : string :=
  match s with
  | EmptyString => EmptyString
  | String c s' =>
      match rstrip s' with
      | EmptyString => if isspace c then EmptyString else String c EmptyString
      | r => String c r
      end
  end.

(** [s.strip()] *)
Definition strip (s : string) : string := rstrip (lstrip s).

Fixpoint all_space (s : string) : bool :=
  match s with
  | EmptyString => true
  | String c s' => isspace c && all_space s'
  end.

Definition first_char (s : string) : option ascii :=
  match s with
  | EmptyString => None
  | String c _ => Some c
  end.

Fixpoint last_char (s : string) : option ascii :=
  match s with
  | EmptyString => None
  | String c EmptyString => Some c
  | String _ s' => last_char s'
  end.

Definition lower_char (c : ascii) : ascii :=
  let n := nat_of_ascii c in
  if (65 <=? n) && (n <=? 90) then ascii_of_nat (n + 32) else c.

Fixpoint map_chars (f : ascii -> ascii) (s : string) : string :=
  match s with
  | EmptyString => EmptyString
  | String c s' => String (f c) (map_chars f s')
  end.

(** [s.lower()] *)
Definition lower (s : string) : string := map_chars lower_char s.

(** [s.replace(old, new)] for one-character [old] and [new]. *)
Definition replace (old new : ascii) (s : string) : string :=
  map_chars (fun c => if Ascii.eqb c old then new else c) s.

(** [x in xs] on a list of strings. *)
Definition contains (x : string) (xs : list string) : bool :=
  existsb (String.eqb x) xs.

(** [str(n)] for an integer. *)
Definition str_of_Z (z : Z) : string :=
  NilZero.string_of_int (Z.to_int z).

Definition join (xs : list string) : string :=
  fold_right String.append EmptyString xs.

Definition nonempty (s : string) : bool :=
  match s with
  | EmptyString => false
  | _ => true
  end.

(** One character through [lower] and then [replace(' ', '_')]. *)
Definition normalize_char (c : ascii) : ascii :=
  let l := lower_char c in if Ascii.eqb l " " then "_"%char else l.

End PyStr.

(* ================================================================== *)
(** ** Exceptions *)

Inductive exn : Type :=
| IndexError
| ValueError
| TypeError
| KeyError
| InvalidIndexError
| WebDriverException.

Inductive result (A : Type) : Type :=
| Ok (a : A)
| Raise (e : exn).
Arguments Ok {A} a.
Arguments Raise {A} e.

Definition rbind {A B} (r : result A) (k : A -> result B) : result B :=
  match r with
  | Ok a => k a
  | Raise e => Raise e
  end.

Declare Scope py_scope.
Delimit Scope py_scope with py.
Notation "x <- r ;; k" := (rbind r (fun x => k))
  (at level 61, r at next level, right associativity) : py_scope.

(** [xs[i]] *)
Definition getitem {A} (xs : list A) (i : nat) : result A :=
  match nth_error xs i with
  | Some x => Ok x
  | None => Raise IndexError
  end.

(* ================================================================== *)
(** ** Parsed pages *)

Module Html.

(** A BeautifulSoup tree: the strings that [get_text] reads (comments,
    scripts and stylesheets, which it leaves out, are not kept) and tags
    with their class tokens and children in document order. *)
Inductive node : Type :=
| Text (s : string)
| Elem (name : string) (classes : list string) (children : list node).

(** [tag.descendants]: every node below [n], in document order. *)
Fixpoint descendants (n : node) : list node :=
  match n with
  | Text _ => []
  | Elem _ _ cs => flat_map (fun c => c :: descendants c) cs
  end.

Definition is_tag (name : string) (n : node) : bool :=
  match n with
  | Text _ => false
  | Elem t _ _ => String.eqb t name
  end.

Definition has_class (cls : string) (n : node) : bool :=
  match n with
  | Text _ => false
  | Elem _ cs _ => PyStr.contains cls cs
  end.

(** [tag.find_all(name)] *)
Definition find_all (name : string) (n : node) : list node :=
  filter (is_tag name) (descendants n).

(** [tag.find_all(name, {'class': cls})] *)
Definition find_all_class (name cls : string) (n : node) : list node :=
  filter (fun x => is_tag name x && has_class cls x) (descendants n).

(** [tag.find(name, class_=cls)]: the first match or [None]. *)
Definition find_class (name cls : string) (n : node) : option node :=
  match find_all_class name cls n with
  | [] => None
  | t :: _ => Some t
  end.

(** The strings below a node, in document order. *)
Fixpoint strings (n : node) : list string :=
  match n with
  | Text s => [s]
  | Elem _ _ cs => flat_map strings cs
  end.

(** [tag.get_text(strip=True)]: every string stripped, the empty ones
    dropped, the rest joined with no separator. *)
Definition get_text_strip (n : node) : string :=
  PyStr.join (filter PyStr.nonempty (map PyStr.strip (strings n))).

End Html.

(* ================================================================== *)
(** ** pandas frames *)

Module Frame.

(** A DataFrame over the default 0..n-1 index: [nrows] index entries
    and the labelled columns in their order (labels may repeat). *)
Record DataFrame (A : Type) : Type := mkDataFrame {
  nrows : nat;
  cols : list (string * list A)
}.
Arguments mkDataFrame {A} nrows cols.
Arguments nrows {A} d.
Arguments cols {A} d.

Section Ops.
Context {A : Type}.

(** [df.columns] *)
Definition columns (df : DataFrame A) : list string := map fst (cols df).

(** Every column holds one value per index entry. *)
Definition wf (df : DataFrame A) : Prop :=
  Forall (fun c => List.length (snd c) = nrows df) (cols df).

(** [pd.DataFrame()] *)
Definition empty_frame : DataFrame A := mkDataFrame 0 [].

(** [df.empty]: some axis has no entry. *)
Definition empty (df : DataFrame A) : bool :=
  (nrows df =? 0) || (List.length (cols df) =? 0).

(** [pd.DataFrame({label: list, ...})]: the lists must agree in size. *)
Definition from_dict (d : list (string * list A)) : result (DataFrame A) :=
  match d with
  | [] => Ok empty_frame
  | (_, vs) :: _ =>
      if forallb (fun c => List.length (snd c) =? List.length vs) d
      then Ok (mkDataFrame (List.length vs) d)
      else Raise ValueError
  end.

(** [df.columns = labels]: one label per column. *)
Definition set_columns (labels : list string) (df : DataFrame A)
  : result (DataFrame A) :=
  if List.length labels =? List.length (cols df)
  then Ok (mkDataFrame (nrows df) (combine labels (map snd (cols df))))
  else Raise ValueError.

(** [label in df.columns] *)
Definition has_column (label : string) (df : DataFrame A) : bool :=
  PyStr.contains label (columns df).

(** The label heads one column at most. *)
Definition single (label : string) (cs : list (string * list A)) : bool :=
  List.length (filter (fun c => String.eqb (fst c) label) cs) <=? 1.

(** [df[label]] used as a Series.  A missing label raises [KeyError];
    a repeated label selects a sub-frame, which the callers in these
    scripts cannot use as a Series: they raise, here with [dup]. *)
Definition series (dup : exn) (label : string) (df : DataFrame A)
  : result (list A) :=
  match filter (fun c => String.eqb (fst c) label) (cols df) with
  | [] => Raise KeyError
  | [c] => Ok (snd c)
  | _ => Raise dup
  end.

(** [df[label] = values]: every column so labelled is overwritten, a
    new label is appended as the last column. *)
Definition setitem (label : string) (vs : list A) (df : DataFrame A)
  : DataFrame A :=
  if has_column label df
  then mkDataFrame (nrows df)
         (map (fun c => if String.eqb (fst c) label then (fst c, vs) else c)
              (cols df))
  else mkDataFrame (nrows df) (cols df ++ [(label, vs)]).

(** [df[label] = scalar] *)
Definition setitem_scalar (label : string) (v : A) (df : DataFrame A)
  : DataFrame A :=
  setitem label (repeat v (nrows df)) df.

(** [df.drop(columns=[label])] *)
Definition drop (label : string) (df : DataFrame A) : result (DataFrame A) :=
  if has_column label df
  then Ok (mkDataFrame (nrows df)
             (filter (fun c => negb (String.eqb (fst c) label)) (cols df)))
  else Raise KeyError.

(** [df.applymap(f)] *)
Definition applymap {B} (f : A -> B) (df : DataFrame A) : DataFrame B :=
  mkDataFrame (nrows df) (map (fun c => (fst c, map f (snd c))) (cols df)).

(** The record at index [i]: its fields in column order. *)
Definition row_at (d : A) (df : DataFrame A) (i : nat) : list (string * A) :=
  map (fun c => (fst c, nth i (snd c) d)) (cols df).

(** The records of a frame in index order. *)
Definition records (d : A) (df : DataFrame A) : list (list (string * A)) :=
  map (row_at d df) (seq 0 (nrows df)).

(** *** [pd.concat(frames, ignore_index=True)] *)

Definition labels_eqb (xs ys : list string) : bool :=
  (List.length xs =? List.length ys) &&
  forallb (fun p => String.eqb (fst p) (snd p)) (combine xs ys).

Fixpoint unique (xs : list string) : bool :=
  match xs with
  | [] => true
  | x :: xs' => negb (PyStr.contains x xs') && unique xs'
  end.

(** Labels in order of first appearance. *)
Definition union_labels (frames : list (DataFrame A)) : list string :=
  fold_left
    (fun acc l => if PyStr.contains l acc then acc else acc ++ [l])
    (flat_map columns frames) [].

Definition lookup (label : string) (cs : list (string * list A))
  : option (list A) :=
  match find (fun c => String.eqb (fst c) label) cs with
  | Some c => Some (snd c)
  | None => None
  end.

(** Column [label] of a frame reindexed on new columns: its values, or
    the missing-value marker once per row. *)
Definition column_or (nan : A) (label : string) (f : DataFrame A) : list A :=
  match lookup label (cols f) with
  | Some vs => vs
  | None => repeat nan (nrows f)
  end.

Definition stack (c1 c2 : list (string * list A)) : list (string * list A) :=
  map (fun p => (fst (fst p), snd (fst p) ++ snd (snd p))) (combine c1 c2).

Definition total_rows (frames : list (DataFrame A)) : nat :=
  fold_right (fun f n => nrows f + n) 0 frames.

(** No frames: [ValueError].  Frames with one and the same column
    index are stacked position by position.  Otherwise the columns are
    the union of the labels and every frame is reindexed on it, which
    pandas refuses for a frame with a repeated label. *)
Definition concat (nan : A) (frames : list (DataFrame A))
  : result (DataFrame A) :=
  match frames with
  | [] => Raise ValueError
  | f0 :: rest =>
      if forallb (fun f => labels_eqb (columns f) (columns f0)) rest
      then Ok (mkDataFrame (total_rows frames)
                 (fold_left (fun acc f => stack acc (cols f)) rest (cols f0)))
      else if forallb (fun f => unique (columns f)) frames
      then Ok (mkDataFrame (total_rows frames)
                 (map (fun l => (l, flat_map (column_or nan l) frames))
                      (union_labels frames)))
      else Raise InvalidIndexError
  end.

End Ops.

End Frame.

(* ================================================================== *)
(** ** web_scraping_cirquits.py *)

Module Circuits.
Import Html Frame.
Local Open Scope py_scope.

(** The candidate loop of [find_circuits_table]. *)
Fixpoint first_circuits_table (tables : list node) : option node :=
  match tables with
  | [] => None
  | t :: rest =>
      let headers := map get_text_strip (find_all "th" t) in
      if PyStr.contains "Circuit" headers then Some t
      else first_circuits_table rest
  end.

Definition find_circuits_table (soup : node) : option node :=
  let tables := find_all_class "table" "wikitable" soup in
  first_circuits_table tables.

(** The six lists that [parse_circuits_table] fills side by side. *)
Record lists6 : Type := mkLists6 {
  circuits : list string;
  locations : list string;
  countries : list string;
  last_lengths : list string;
  circuit_laps : list string;
  seasons : list string
}.

Definition no_lists : lists6 := mkLists6 [] [] [] [] [] [].

(** One iteration of the row loop. *)
Definition parse_row (acc : lists6) (row : node) : result lists6 :=
  let cols := find_all "td" row in
  if 10 <=? List.length cols then
    c0 <- getitem cols 0 ;;
    c4 <- getitem cols 4 ;;
    c5 <- getitem cols 5 ;;
    c6 <- getitem cols 6 ;;
    c7 <- getitem cols 7 ;;
    c9 <- getitem cols 9 ;;
    Ok (mkLists6 (circuits acc ++ [get_text_strip c0])
                 (locations acc ++ [get_text_strip c4])
                 (countries acc ++ [get_text_strip c5])
                 (last_lengths acc ++ [get_text_strip c6])
                 (circuit_laps acc ++ [get_text_strip c7])
                 (seasons acc ++ [get_text_strip c9]))
  else Ok acc.

Fixpoint parse_rows (rows : list node) (acc : lists6) : result lists6 :=
  match rows with
  | [] => Ok acc
  | row :: rest => acc' <- parse_row acc row ;; parse_rows rest acc'
  end.

Definition parse_circuits_table (table : node) : result (DataFrame string) :=
  acc <- parse_rows (skipn 1 (find_all "tr" table)) no_lists ;;
  from_dict [("circuit", circuits acc);
             ("location", locations acc);
             ("country", countries acc);
             ("last_length_used", last_lengths acc);
             ("circuit_laps", circuit_laps acc);
             ("seasons", seasons acc)].

(** [c.lower().replace(' ', '_')] *)
Definition normalize_name (c : string) : string :=
  PyStr.replace " "%char "_"%char (PyStr.lower c).

Definition clean_data (df : DataFrame string) : result (DataFrame string) :=
  df' <- set_columns (map normalize_name (columns df)) df ;;
  Ok (applymap PyStr.strip df').

End Circuits.

(* ================================================================== *)
(** ** Dates: [pd.to_datetime(text, format='%d %b %Y', errors='coerce')] *)

Module Strptime.
Local Open Scope Z_scope.

Definition is_digit (c : ascii) : bool :=
  let n := nat_of_ascii c in ((48 <=? n) && (n <=? 57))%nat.

Definition digit (c : ascii) : Z := Z.of_nat (nat_of_ascii c) - 48.

Definition in_range (lo hi : nat) (c : ascii) : bool :=
  let n := nat_of_ascii c in ((lo <=? n) && (n <=? hi))%nat.

(** The directive [%d] is the regular expression
    [3[0-1]|[1-2]\d|0[1-9]|[1-9]| [1-9]]: every alternative that matches
    at the head of [s], in that order, with what it leaves. *)
Definition day_alternatives (s : string) : list (Z * string) :=
  match s with
  | String a (String b r) =>
      (if Ascii.eqb a "3" && in_range 48 49 b then [(30 + digit b, r)] else [])
      ++ (if in_range 49 50 a && is_digit b then [(10 * digit a + digit b, r)] else [])
      ++ (if Ascii.eqb a "0" && in_range 49 57 b then [(digit b, r)] else [])
      ++ (if in_range 49 57 a then [(digit a, String b r)] else [])
      ++ (if Ascii.eqb a " " && in_range 49 57 b then [(digit b, r)] else [])
  | String a EmptyString =>
      if in_range 49 57 a then [(digit a, EmptyString)] else []
  | EmptyString => []
  end.

(** [\s+]: one whitespace character or more, as many as there are. *)
Definition spaces1 (s : string) : option string :=
  match s with
  | String c r => if PyStr.isspace c then Some (PyStr.lstrip r) else None
  | EmptyString => None
  end.

Definition month_names : list string :=
  ["jan"; "feb"; "mar"; "apr"; "may"; "jun";
   "jul"; "aug"; "sep"; "oct"; "nov"; "dec"]%string.

Fixpoint index_of (x : string) (xs : list string) (i : Z) : option Z :=
  match xs with
  | [] => None
  | y :: ys => if String.eqb x y then Some i else index_of x ys (i + 1)
  end.

(** The directive [%b]: an abbreviated month name of the C locale, in
    any case. *)
Definition month (s : string) : option (Z * string) :=
  match s with
  | String a (String b (String c r)) =>
      match index_of (PyStr.lower (String a (String b (String c EmptyString))))
                     month_names 1 with
      | Some m => Some (m, r)
      | None => None
      end
  | _ => None
  end.

(** The directive [%Y]: four digits. *)
Definition year4 (s : string) : option (Z * string) :=
  match s with
  | String a (String b (String c (String d r))) =>
      if is_digit a && is_digit b && is_digit c && is_digit d
      then Some (1000 * digit a + 100 * digit b + 10 * digit c + digit d, r)
      else None
  | _ => None
  end.

Definition is_leap (y : Z) : bool :=
  ((y mod 4 =? 0) && negb (y mod 100 =? 0)) || (y mod 400 =? 0).

Definition days_in_month (y m : Z) : Z :=
  if m =? 2 then (if is_leap y then 29 else 28)
  else if (m =? 4) || (m =? 6) || (m =? 9) || (m =? 11) then 30
  else 31.

(** Lexicographic order on (year, month, day). *)
Definition date_leb (a b : Z * Z * Z) : bool :=
  let '(y1, m1, d1) := a in
  let '(y2, m2, d2) := b in
  (y1 <? y2) || ((y1 =? y2) && ((m1 <? m2) || ((m1 =? m2) && (d1 <=? d2)))).

(** A calendar day that a nanosecond Timestamp can hold. *)
Definition valid_date (y m d : Z) : bool :=
  (1 <=? d) && (d <=? days_in_month y m)
  && date_leb (1677, 9, 22) (y, m, d) && date_leb (y, m, d) (2262, 4, 11).

(** What follows the day: [\s+%b\s+%Y] and the end of the text. *)
Definition after_day (d : Z) (s : string) : option (Z * Z * Z) :=
  match spaces1 s with
  | None => None
  | Some s1 =>
      match month s1 with
      | None => None
      | Some (m, s2) =>
          match spaces1 s2 with
          | None => None
          | Some s3 =>
              match year4 s3 with
              | Some (y, EmptyString) =>
                  if valid_date y m d then Some (y, m, d) else None
              | _ => None
              end
          end
      end
  end.

Fixpoint first_some {A B} (f : A -> option B) (xs : list A) : option B :=
  match xs with
  | [] => None
  | x :: xs' =>
      match f x with
      | Some b => Some b
      | None => first_some f xs'
      end
  end.

(** The whole text against ['%d %b %Y']; [None] is the ValueError that
    [errors='coerce'] turns into NaT. *)
Definition strptime (s : string) : option (Z * Z * Z) :=
  first_some (fun a => after_day (fst a) (snd a)) (day_alternatives s).





Fixpoint digits (s : string) : bool :=
  match s with
  | EmptyString => true
  | String c s' => is_digit c && digits s'
  end.

End Strptime.

(* ================================================================== *)
(** ** web_scraping_winners.py *)

Module Winners.
Import Html Frame.

(** *** Cell values *)

Section Values.

(** numpy's float64, kept abstract. *)
Variable float64 : Type.

Inductive num : Type :=
| NInt (z : Z)
| NFloat (f : float64).

(** What a scraped frame holds: text, numbers and NaN. *)
Inductive value : Type :=
| VStr (s : string)
| VNum (n : num)
| VNaN.

(** What a cleaned frame holds: scraped values, dates and NaT. *)
Inductive cell : Type :=
| Raw (v : value)
| Timestamp (y m d : Z)
| NaT.

(** What the session does, in order. *)
Inductive event : Type :=
| Launch
| Get (url : string)
| Sleep (seconds : nat)
| Quit
| Print (line : string)
| ToCsv (path : string) (df : DataFrame cell).

(** The browser session: pages loaded so far, the page on display and
    the log of events. *)
Record session : Type := mkSession {
  loads : nat;
  page : node;
  log : list event
}.

End Values.

Arguments NInt {float64} z.
Arguments NFloat {float64} f.
Arguments VStr {float64} s.
Arguments VNum {float64} n.
Arguments VNaN {float64}.
Arguments Raw {float64} v.
Arguments Timestamp {float64} y m d.
Arguments NaT {float64}.
Arguments Launch {float64}.
Arguments Get {float64} url.
Arguments Sleep {float64} seconds.
Arguments Quit {float64}.
Arguments Print {float64} line.
Arguments ToCsv {float64} path df.
Arguments mkSession {float64} loads page log.
Arguments loads {float64} s.
Arguments page {float64} s.
Arguments log {float64} s.

(** *** The script *)

Section Script.

Variable float64 : Type.

(** pandas' numeric parser behind [pd.to_numeric]. *)
Variable parse_numeric : string -> option (num float64).

(** [str(x)] for a float. *)
Variable str_of_float : float64 -> string.

(** [pd.read_html(StringIO(str(table)))]: the frames parsed out of the
    markup, or ValueError when it holds no table. *)
Variable read_html : node -> result (list (DataFrame (value float64))).

(** The web: what the [n]-th page load of the session, of [url],
    brings up. *)
Variable web : nat -> string -> result node.

Notation value := (value float64).
Notation cell := (cell float64).
Notation event := (event float64).
Notation session := (session float64).

(** Computations over the session that may raise. *)
Definition M (A : Type) : Type := session -> result A * session.

Definition ret {A} (a : A) : M A := fun s => (Ok a, s).

Definition bind {A B} (m : M A) (k : A -> M B) : M B :=
  fun s =>
    match m s with
    | (Ok a, s') => k a s'
    | (Raise e, s') => (Raise e, s')
    end.

Definition lift {A} (r : result A) : M A := fun s => (r, s).

Definition emit (e : event) : M unit :=
  fun s => (Ok tt, mkSession (loads s) (page s) (log s ++ [e])).

Notation "x <- m ;; k" := (bind m (fun x => k))
  (at level 61, m at next level, right associativity).
Notation "m ;; k" := (bind m (fun _ => k))
  (at level 61, right associativity).

(** [print(line)] *)
Definition print (line : string) : M unit := emit (Print line).

(** [time.sleep(seconds)] *)
Definition sleep (seconds : nat) : M unit := emit (Sleep seconds).

(** [driver.get(url)] *)
Definition driver_get (url : string) : M unit :=
  fun s =>
    let lg := log s ++ [Get url] in
    match web (loads s) url with
    | Ok p => (Ok tt, mkSession (S (loads s)) p lg)
    | Raise e => (Raise e, mkSession (S (loads s)) (page s) lg)
    end.

(** [driver.page_source], parsed by BeautifulSoup. *)
Definition page_source : M node := fun s => (Ok (page s), s).

(** [driver.quit()] *)
Definition driver_quit : M unit := emit Quit.

Definition init_driver : M unit := emit Launch.

Definition scrape_year (year : Z) : M (option (DataFrame value)) :=
  print ("Saving data for: " ++ PyStr.str_of_Z year ++ "...")%string ;;
  let url := "https://"%string in
  driver_get url ;;
  sleep 5 ;;
  soup <- page_source ;;
  match find_class "table" "f1-table" soup with
  | Some table =>
      frames <- lift (read_html table) ;;
      df <- lift (getitem frames 0) ;;
      ret (Some (setitem_scalar "year" (VNum (NInt year)) df))
  | None =>
      print ("No data for: " ++ PyStr.str_of_Z year ++ ".")%string ;;
      ret None
  end.

(** The period loop of [scrape_all]. *)
Fixpoint scrape_years (years : list Z) (all_races : list (DataFrame value))
  : M (list (DataFrame value)) :=
  match years with
  | [] => ret all_races
  | year :: rest =>
      df_year <- scrape_year year ;;
      match df_year with
      | Some df => scrape_years rest (all_races ++ [df])
      | None => scrape_years rest all_races
      end
  end.

Definition scrape_all (years : list Z) : M (DataFrame value) :=
  init_driver ;;
  all_races <- scrape_years years [] ;;
  driver_quit ;;
  match all_races with
  | [] => ret empty_frame
  | _ => lift (concat VNaN all_races)
  end.

(** [pd.to_numeric(x, errors='coerce')] on one value. *)
Definition to_numeric (v : value) : value :=
  match v with
  | VStr s =>
      match parse_numeric s with
      | Some n => VNum n
      | None => VNaN
      end
  | VNum n => VNum n
  | VNaN => VNaN
  end.

(** [x.astype(str)] on one value. *)
Definition astype_str (v : value) : string :=
  match v with
  | VStr s => s
  | VNum (NInt z) => PyStr.str_of_Z z
  | VNum (NFloat f) => str_of_float f
  | VNaN => "nan"
  end.

(** [pd.to_datetime(x, format='%d %b %Y', errors='coerce')] on one text. *)
Definition to_datetime (s : string) : cell :=
  match Strptime.strptime s with
  | Some (y, m, d) => Timestamp y m d
  | None => NaT
  end.

(** One entry of the helper column [full_date]; the two Series share
    the frame's index, so [+] pairs them entry by entry. *)
Definition full_date (date year : value) : string :=
  (astype_str date ++ " " ++ astype_str year)%string.

(** The helper column read back; it holds the texts just built. *)
Definition to_datetime_value (v : value) : cell :=
  match v with
  | VStr s => to_datetime s
  | _ => NaT
  end.

Definition normalize_name (c : string) : string :=
  PyStr.replace " "%char "_"%char (PyStr.lower c).

Definition clean_data (df : DataFrame value) : result (DataFrame cell) :=
  (df <- set_columns (map normalize_name (columns df)) df ;;
   df <- (if has_column "laps" df
          then laps <- series TypeError "laps" df ;;
               Ok (setitem "laps" (map to_numeric laps) df)
          else Ok df) ;;
   if has_column "date" df && has_column "year" df
   then
     date <- series ValueError "date" df ;;
     year <- series ValueError "year" df ;;
     let df := setitem "full_date"
                 (map (fun p => VStr (full_date (fst p) (snd p)))
                      (combine date year)) df in
     helper <- series ValueError "full_date" df ;;
     let df := setitem "date" (map to_datetime_value helper)
                 (applymap Raw df) in
     drop "full_date" df
   else Ok (applymap Raw df))%py.

(** [range(start, stop)] *)
Definition range (start stop : Z) : list Z :=
  map (fun i => (start + Z.of_nat i)%Z) (seq 0 (Z.to_nat (stop - start))).

(** [df.to_csv(path, index=False)] *)
Definition to_csv (path : string) (df : DataFrame cell) : M unit :=
  emit (ToCsv path df).

Definition main : M unit :=
  let years := range 1950 2025 in
  df_all_races <- scrape_all years ;;
  if negb (empty df_all_races)
  then
    df_all_races <- lift (clean_data df_all_races) ;;
    to_csv ".csv" df_all_races ;;
    print "SAVED: '.csv'."
  else print "No data found.".

End Script.

End Winners.

Arguments Winners.M float64 A : clear implicits.
Arguments Winners.to_numeric {float64} parse_numeric v.
Arguments Winners.astype_str {float64} str_of_float v.
Arguments Winners.to_datetime {float64} s.
Arguments Winners.to_datetime_value {float64} v.
Arguments Winners.full_date {float64} str_of_float date year.
Arguments Winners.clean_data {float64} parse_numeric str_of_float df.
Arguments Winners.scrape_year {float64} read_html web year _.
Arguments Winners.scrape_years {float64} read_html web years all_races _.
Arguments Winners.scrape_all {float64} read_html web years _.
Arguments Winners.main {float64} parse_numeric str_of_float read_html web _.
Arguments Winners.init_driver {float64} _.
Arguments Winners.driver_quit {float64} _.

(* ================================================================== *)
(** ** Vocabulary of the statements *)

Module Expected.
Import Html Frame.

(** The header texts that [find_circuits_table] computes for a table:
    the stripped text of each of its [th] cells. *)
Definition headers (t : node) : list string :=
  map get_text_strip (find_all "th" t).


(** The cells of a row and the stripped text of the [i]-th one. *)
Definition cells (row : node) : list node := find_all "td" row.

Definition cell_text (i : nat) (row : node) : string :=
  get_text_strip (nth i (cells row) (Text EmptyString)).

(** A row that the positional extractor keeps. *)
Definition qualifies (row : node) : bool := 10 <=? List.length (cells row).

(** The data rows of a table: every row but the first. *)
Definition data_rows (table : node) : list node :=
  skipn 1 (find_all "tr" table).

(** The record read off a qualifying row. *)
Definition circuit_record (row : node) : list (string * string) :=
  [("circuit", cell_text 0 row);
   ("location", cell_text 4 row);
   ("country", cell_text 5 row);
   ("last_length_used", cell_text 6 row);
   ("circuit_laps", cell_text 7 row);
   ("seasons", cell_text 9 row)].

Definition td (s : string) : node := Elem "td" [] [Text s].
Definition th (s : string) : node := Elem "th" [] [Text s].
Definition tr (cs : list node) : node := Elem "tr" [] cs.


End Expected.

Module ExpectedWinners.
Import Html Frame Winners.

Section Vocabulary.

Variable float64 : Type.
Variable parse_numeric : string -> option (num float64).
Variable str_of_float : float64 -> string.
Variable read_html : node -> result (list (DataFrame (value float64))).
Variable web : nat -> string -> result node.

(** One entry of the date column after cleaning: the day-month entry
    joined to the year entry and read as a date. *)
Definition combine_date (date year : value float64) : cell float64 :=
  to_datetime (full_date str_of_float date year).

(** What cleaning leaves in a renamed column, [year] being the year
    column when there is one. *)
Definition cleaned_column (year : option (list (value float64)))
           (c : string * list (value float64))
  : string * list (cell float64) :=
  if String.eqb (fst c) "laps"
  then (fst c, map (fun v => Raw (to_numeric parse_numeric v)) (snd c))
  else if String.eqb (fst c) "date"
  then match year with
       | Some ys =>
           (fst c, map (fun p => combine_date (fst p) (snd p))
                       (combine (snd c) ys))
       | None => (fst c, map Raw (snd c))
       end
  else (fst c, map Raw (snd c)).

(** The laps step on one renamed column. *)
Definition laps_column (c : string * list (value float64))
  : string * list (value float64) :=
  if String.eqb (fst c) "laps"
  then (fst c, map (to_numeric parse_numeric) (snd c))
  else c.

(** The date step on one column, [dates] being the new date entries. *)
Definition date_column (dates : list (cell float64))
           (c : string * list (value float64))
  : string * list (cell float64) :=
  if String.eqb (fst c) "date" then (fst c, dates)
  else (fst c, map Raw (snd c)).

(** A column that outlives the removal of the helper column. *)
Definition keeps (c : string * list (cell float64)) : bool :=
  negb (String.eqb (fst c) "full_date").

(** The labels that cleaning reads head one column each at most:
    [laps], and [date], [year] and the helper when the date step runs. *)
Definition readable (cs : list (string * list (value float64))) : bool :=
  single "laps" cs
  && (if PyStr.contains "date" (map fst cs) && PyStr.contains "year" (map fst cs)
      then single "date" cs && single "year" cs && single "full_date" cs
      else true).

(** The columns of a frame under their normalized names. *)
Definition renamed (df : DataFrame (value float64))
  : list (string * list (value float64)) :=
  map (fun c => (normalize_name (fst c), snd c)) (cols df).

Definition is_launch (e : event float64) : bool :=
  match e with Launch => true | _ => false end.

Definition is_quit (e : event float64) : bool :=
  match e with Quit => true | _ => false end.

Definition is_to_csv (e : event float64) : bool :=
  match e with ToCsv _ _ => true | _ => false end.

(** How often the driver was started and stopped in a log. *)
Definition acquisitions (lg : list (event float64)) : nat :=
  List.length (filter is_launch lg).

Definition releases (lg : list (event float64)) : nat :=
  List.length (filter is_quit lg).

(** What the [n]-th page load, made for period [year], comes to: an
    exception, no table, or the table's frame tagged with the period. *)
Definition period_outcome (n : nat) (year : Z)
  : result (option (DataFrame (value float64))) :=
  match web n "https://" with
  | Raise e => Raise e
  | Ok p =>
      match find_class "table" "f1-table" p with
      | None => Ok None
      | Some table =>
          match read_html table with
          | Raise e => Raise e
          | Ok frames =>
              match getitem frames 0 with
              | Raise e => Raise e
              | Ok df => Ok (Some (setitem_scalar "year" (VNum (NInt year)) df))
              end
          end
      end
  end.

(** What the session logs for that period. *)
Definition period_events (n : nat) (year : Z) : list (event float64) :=
  Print ("Saving data for: " ++ PyStr.str_of_Z year ++ "...")%string
  :: Get "https://"
  :: match web n "https://" with
     | Raise _ => []
     | Ok p =>
         Sleep 5
         :: match find_class "table" "f1-table" p with
            | None => [Print ("No data for: " ++ PyStr.str_of_Z year ++ ".")%string]
            | Some _ => []
            end
     end.

(** The page on display after that period. *)
Definition period_page (n : nat) (before : node) : node :=
  match web n "https://" with
  | Ok p => p
  | Raise _ => before
  end.

(** The period loop as a function of the page loads: the frames it
    gathers, or the first exception. *)
Fixpoint loop_outcome (n : nat) (years : list Z)
         (acc : list (DataFrame (value float64)))
  : result (list (DataFrame (value float64))) :=
  match years with
  | [] => Ok acc
  | year :: rest =>
      match period_outcome n year with
      | Raise e => Raise e
      | Ok (Some df) => loop_outcome (S n) rest (acc ++ [df])
      | Ok None => loop_outcome (S n) rest acc
      end
  end.

Fixpoint loop_events (n : nat) (years : list Z) : list (event float64) :=
  match years with
  | [] => []
  | year :: rest =>
      period_events n year
      ++ match period_outcome n year with
         | Raise _ => []
         | Ok _ => loop_events (S n) rest
         end
  end.

(** An event of the period loop: it neither starts nor stops the
    driver and writes no file. *)
Definition quiet (e : event float64) : bool :=
  negb (is_launch e) && negb (is_quit e) && negb (is_to_csv e).

(** The frames of the periods that have a table, the [n]-th page load
    being the first period's. *)
Fixpoint collected (n : nat) (years : list Z)
  : list (DataFrame (value float64)) :=
  match years with
  | [] => []
  | year :: rest =>
      match period_outcome n year with
      | Ok (Some df) => df :: collected (S n) rest
      | _ => collected (S n) rest
      end
  end.

(** No page load of the run raises, nor the parsing of its table. *)
Fixpoint all_periods_return (n : nat) (years : list Z) : Prop :=
  match years with
  | [] => True
  | year :: rest =>
      (exists o, period_outcome n year = Ok o) /\ all_periods_return (S n) rest
  end.

(** A record on the columns [labels]: itself when those are its
    fields, else each label's field or the missing-value marker. *)
Definition conform {A} (nan : A) (labels : list string)
           (r : list (string * A)) : list (string * A) :=
  if labels_eqb (map fst r) labels then r
  else map (fun l => (l, match find (fun p => String.eqb (fst p) l) r with
                         | Some p => snd p
                         | None => nan
                         end)) labels.

End Vocabulary.

End ExpectedWinners.

Arguments ExpectedWinners.combine_date {float64} str_of_float date year.
Arguments ExpectedWinners.cleaned_column {float64} parse_numeric str_of_float year c.
Arguments ExpectedWinners.renamed {float64} df.
Arguments ExpectedWinners.readable {float64} cs.
Arguments ExpectedWinners.laps_column {float64} parse_numeric c.
Arguments ExpectedWinners.date_column {float64} dates c.
Arguments ExpectedWinners.keeps {float64} c.
Arguments ExpectedWinners.is_launch {float64} e.
Arguments ExpectedWinners.is_quit {float64} e.
Arguments ExpectedWinners.is_to_csv {float64} e.
Arguments ExpectedWinners.acquisitions {float64} lg.
Arguments ExpectedWinners.releases {float64} lg.
Arguments ExpectedWinners.period_outcome {float64} read_html web n year.
Arguments ExpectedWinners.collected {float64} read_html web n years.
Arguments ExpectedWinners.period_events {float64} web n year.
Arguments ExpectedWinners.loop_outcome {float64} read_html web n years acc.
Arguments ExpectedWinners.loop_events {float64} read_html web n years.
Arguments ExpectedWinners.quiet {float64} e.
Arguments ExpectedWinners.all_periods_return {float64} read_html web n years.

(* ================================================================== *)
(** ** Sample pages and readers

    Concrete stand-ins for the libraries and for the web, on which the
    scripts can be run: a reader for plain tables, a parser for
    unsigned decimal numerals, and a few pages. *)

Module Sample.
Import Html Frame Winners Expected.

(** No float occurs in the samples. *)
Definition float64 : Type := Empty_set.

Definition str_of_float (f : float64) : string := match f with end.

Fixpoint decimal (s : string) (acc : Z) : Z :=
  match s with
  | EmptyString => acc
  | String c s' => decimal s' (10 * acc + Strptime.digit c)%Z
  end.

Definition parse_numeric (s : string) : option (num float64) :=
  let t := PyStr.strip s in
  if PyStr.nonempty t && Strptime.digits t then Some (NInt (decimal t 0))
  else None.

(** One frame per table: the header cells of the first row label the
    columns, every later row gives one record, short rows are padded. *)
Definition read_html (table : node)
  : result (list (DataFrame (value float64))) :=
  match find_all "tr" table with
  | [] => Raise ValueError
  | head :: rows =>
      let labels := map get_text_strip (find_all "th" head) in
      Ok [mkDataFrame (List.length rows)
            (map (fun jl =>
                    (snd jl,
                     map (fun row =>
                            match nth_error (find_all "td" row) (fst jl) with
                            | Some c => VStr (get_text_strip c)
                            | None => VNaN
                            end) rows))
                 (combine (seq 0 (List.length labels)) labels))]
  end.

Definition document (body : list node) : node :=
  Elem "[document]" [] [Elem "html" [] [Elem "head" [] []; Elem "body" [] body]].

Definition blank : node := document [].

Definition table_2021 : node :=
  Elem "table" ["f1-table"; "f1-table-with-data"]
    [tr [th "Grand Prix"; th "Date"; th "Winner"; th "Laps"];
     tr [td "Bahrain"; td "28 Mar"; td "Lewis Hamilton"; td "56"];
     tr [td "Emilia Romagna"; td "18 Apr"; td "Max Verstappen"; td "63"]].

Definition results_2021 : node := document [table_2021].

(** What the sample reader makes of that table. *)
Definition frame_2021 : DataFrame (value float64) :=
  mkDataFrame 2
    [("Grand Prix", [VStr "Bahrain"; VStr "Emilia Romagna"]);
     ("Date", [VStr "28 Mar"; VStr "18 Apr"]);
     ("Winner", [VStr "Lewis Hamilton"; VStr "Max Verstappen"]);
     ("Laps", [VStr "56"; VStr "63"])].

(** The first page load brings up a page without table, the second one
    the 2021 results; the connection is lost after that. *)
Definition web_2020_2021 (n : nat) (url : string) : result node :=
  match n with
  | 0 => Ok blank
  | 1 => Ok results_2021
  | _ => Raise WebDriverException
  end.

Definition web_down (n : nat) (url : string) : result node :=
  Raise WebDriverException.

Definition web_blank (n : nat) (url : string) : result node := Ok blank.

Definition start : session float64 := mkSession 0 blank [].


(** A scraped frame in which [full_date] already labels a column. *)
Definition races_with_full_date : DataFrame (value float64) :=
  mkDataFrame 1
    [("date", [VStr "5 Mar"]);
     ("year", [VNum (NInt 2021)]);
     ("full_date", [VStr "Friday 5 March 2021"])].

End Sample.

(* ================================================================== *)
(** ** web_scraping_cirquits.py: the fetch and the main function *)

Module CircuitsRun.
Import Html Frame Circuits.

(** What [requests] raises: no response at all, or the HTTPError of
    [raise_for_status]. *)
Inductive request_exn : Type :=
| ConnectionError
| HTTPError (status : nat).

(** What stops the script. *)
Inductive failure : Type :=
| Requests (e : request_exn)
| Python (e : exn).

Inductive outcome (A : Type) : Type :=
| Done (a : A)
| Failed (f : failure).
Arguments Done {A} a.
Arguments Failed {A} f.

(** A response: its status code and its content as [html.parser]
    reads it. *)
Record response : Type := mkResponse {
  status_code : nat;
  content : node
}.

(** What the script shows and writes. *)
Inductive event : Type :=
| Print (line : string)
| PrintFrame (df : DataFrame string)
| ToCsv (path : string) (df : DataFrame string).

(** [df.head(n)] *)
Definition head (n : nat) (df : DataFrame string) : DataFrame string :=
  mkDataFrame (Nat.min n (nrows df))
    (map (fun c => (fst c, firstn n (snd c))) (cols df)).

(** Computations that log events and may stop the script. *)
Definition M (A : Type) : Type := list event -> outcome A * list event.

Definition ret {A} (a : A) : M A := fun lg => (Done a, lg).

Definition bind {A B} (m : M A) (k : A -> M B) : M B :=
  fun lg =>
    match m lg with
    | (Done a, lg') => k a lg'
    | (Failed f, lg') => (Failed f, lg')
    end.

Definition emit (e : event) : M unit := fun lg => (Done tt, lg ++ [e]).

Definition lift {A} (o : outcome A) : M A := fun lg => (o, lg).

Definition python {A} (r : result A) : M A :=
  lift (match r with
        | Ok a => Done a
        | Raise e => Failed (Python e)
        end).

Section Script.

(** [requests.get]: the response to a URL, or the exception. *)
Variable http : string -> request_exn + response.

(** [response.raise_for_status()]: client and server error codes. *)
Definition raise_for_status (r : response) : outcome unit :=
  if (400 <=? status_code r) && (status_code r <? 600)
  then Failed (Requests (HTTPError (status_code r)))
  else Done tt.

Definition fetch_page (url : string) : outcome node :=
  match http url with
  | inl e => Failed (Requests e)
  | inr r =>
      match raise_for_status r with
      | Failed f => Failed f
      | Done _ => Done (content r)
      end
  end.

Notation "x <- m ;; k" := (bind m (fun x => k))
  (at level 61, m at next level, right associativity).
Notation "m ;; k" := (bind m (fun _ => k))
  (at level 61, right associativity).

(** A tag is true whatever it holds, so [if table:] asks whether a
    table was found. *)
Definition main : M unit :=
  let url := "https://"%string in
  soup <- lift (fetch_page url) ;;
  match find_circuits_table soup with
  | Some table =>
      df_circuits <- python (parse_circuits_table table) ;;
      df_circuits <- python (clean_data df_circuits) ;;
      emit (ToCsv ".csv" df_circuits) ;;
      emit (Print "SAVED: '.csv'") ;;
      emit (PrintFrame (head 5 df_circuits))
  | None => emit (Print "No table found.")
  end.

End Script.

End CircuitsRun.

(* ================================================================== *)
(** ** More vocabulary *)

Module Shape.



(** A text with no whitespace at either end. *)
Definition trimmed (s : string) : bool :=
  match PyStr.first_char s, PyStr.last_char s with
  | Some a, Some b => negb (PyStr.isspace a) && negb (PyStr.isspace b)
  | _, _ => true
  end.


End Shape.

Module Trace.
Import Frame Winners.

Definition is_get {float64} (e : event float64) : bool :=
  match e with Get _ => true | _ => false end.

Definition is_sleep {float64} (e : event float64) : bool :=
  match e with Sleep 5 => true | _ => false end.

(** How many pages a log shows loaded, and how many pauses. *)
Definition gets {float64} (lg : list (event float64)) : nat :=
  List.length (filter is_get lg).

Definition sleeps {float64} (lg : list (event float64)) : nat :=
  List.length (filter is_sleep lg).

End Trace.

Module MoreSamples.
Import Frame Winners.

(** A scraped frame with two columns whose names normalize to [laps]. *)
Definition races_two_laps : DataFrame (value Sample.float64) :=
  mkDataFrame 1
    [("Grand Prix", [VStr "Bahrain"]);
     ("Laps", [VStr "56"]);
     ("laps", [VStr "57"])].


End MoreSamples.

(* ================================================================== *)
(** * Properties *)

(** ** Strings *)

Module PyStrFacts.
Import PyStr.

Lemma contains_In (x : string) (xs : list string) :
  contains x xs = true <-> In x xs.
Proof.
  unfold contains. rewrite existsb_exists. split.
  - intros [y [Hy Heq]]. apply String.eqb_eq in Heq. now subst.
  - intros H. exists x. split; [assumption | apply String.eqb_refl].
Qed.

Lemma contains_false (x : string) (xs : list string) :
  contains x xs = false <-> ~ In x xs.
Proof.
  rewrite <- contains_In. destruct (contains x xs); split; congruence.
Qed.

Lemma map_chars_compose (f g : ascii -> ascii) (s : string) :
  map_chars g (map_chars f s) = map_chars (fun c => g (f c)) s.
Proof.
  induction s as [|c s IH]; simpl; [reflexivity | now rewrite IH].
Qed.

Lemma map_chars_ext (f g : ascii -> ascii) (s : string) :
  (forall c, f c = g c) -> map_chars f s = map_chars g s.
Proof.
  intros H. induction s as [|c s IH]; simpl; [reflexivity|].
  now rewrite H, IH.
Qed.

Lemma normalize_char_idem (c : ascii) :
  normalize_char (normalize_char c) = normalize_char c.
Proof.
  destruct c as [[] [] [] [] [] [] [] []]; reflexivity.
Qed.

Lemma replace_lower (s : string) :
  replace " " "_" (lower s) = map_chars normalize_char s.
Proof.
  unfold replace, lower. now rewrite map_chars_compose.
Qed.

Lemma rstrip_all_space (s : string) :
  all_space s = true -> rstrip s = EmptyString.
Proof.
  induction s as [|c s IH]; simpl; [reflexivity|].
  intros H. apply andb_true_iff in H as [Hc Hs].
  now rewrite (IH Hs), Hc.
Qed.

Lemma rstrip_idem (s : string) : rstrip (rstrip s) = rstrip s.
Proof.
  induction s as [|c s IH]; simpl; [reflexivity|].
  destruct (rstrip s) as [|c' r] eqn:E.
  - destruct (isspace c) eqn:Ec; simpl; [reflexivity | now rewrite Ec].
  - simpl in *. now rewrite IH.
Qed.

Lemma lstrip_first (s : string) :
  match first_char (lstrip s) with
  | Some c => isspace c = false
  | None => True
  end.
Proof.
  induction s as [|c s IH]; simpl; [exact I|].
  destruct (isspace c) eqn:Ec; [exact IH | simpl; exact Ec].
Qed.

Lemma rstrip_first (s : string) :
  match first_char s with
  | Some c => isspace c = false -> first_char (rstrip s) = Some c
  | None => True
  end.
Proof.
  destruct s as [|c s]; simpl; [exact I|].
  intros Hc. destruct (rstrip s); [now rewrite Hc | reflexivity].
Qed.

Lemma rstrip_last (s : string) :
  match last_char (rstrip s) with
  | Some c => isspace c = false
  | None => True
  end.
Proof.
  induction s as [|c s IH]; simpl; [exact I|].
  destruct (rstrip s) as [|c' r] eqn:E.
  - destruct (isspace c) eqn:Ec; simpl; [exact I | exact Ec].
  - simpl in IH. simpl. exact IH.
Qed.

(** [strip] removes whitespace at both ends and nothing else. *)
Lemma lstrip_split (s : string) :
  exists l, all_space l = true /\ s = (l ++ lstrip s)%string.
Proof.
  induction s as [|c s [l [Hl Hs]]]; simpl.
  - exists EmptyString. now split.
  - destruct (isspace c) eqn:Ec.
    + exists (String c l). simpl. rewrite Ec, Hl. split; [reflexivity|].
      now rewrite <- Hs.
    + exists EmptyString. now split.
Qed.

Lemma rstrip_split (s : string) :
  exists r, all_space r = true /\ s = (rstrip s ++ r)%string.
Proof.
  induction s as [|c s [r [Hr Hs]]]; simpl.
  - exists EmptyString. now split.
  - destruct (rstrip s) as [|c' t] eqn:E.
    + simpl in Hs. destruct (isspace c) eqn:Ec.
      * exists (String c r). simpl. rewrite Ec, Hr. split; [reflexivity|].
        now f_equal.
      * exists r. split; [assumption|]. simpl. now f_equal.
    + exists r. split; [assumption|]. simpl. f_equal. exact Hs.
Qed.

Lemma strip_split (s : string) :
  exists l r, all_space l = true /\ all_space r = true
              /\ s = (l ++ strip s ++ r)%string.
Proof.
  destruct (lstrip_split s) as [l [Hl Hs]].
  destruct (rstrip_split (lstrip s)) as [r [Hr Hs']].
  exists l, r. repeat split; try assumption.
  unfold strip. now rewrite <- Hs', <- Hs.
Qed.

Lemma strip_ends (s : string) :
  match first_char (strip s), last_char (strip s) with
  | Some a, Some b => isspace a = false /\ isspace b = false
  | None, None => True
  | _, _ => False
  end.
Proof.
  unfold strip.
  pose proof (lstrip_first s) as Hf.
  pose proof (rstrip_first (lstrip s)) as Hk.
  pose proof (rstrip_last (lstrip s)) as Hl.
  destruct (first_char (lstrip s)) as [a|] eqn:Ea.
  - rewrite (Hk Hf).
    destruct (last_char (rstrip (lstrip s))) as [b|] eqn:Eb; [now split|].
    specialize (Hk Hf). destruct (rstrip (lstrip s)) as [|x [|y t]]; simpl in *;
      try discriminate.
    clear Hk Hl. revert y Eb. induction t as [|z t IH]; intros y Eb.
    + discriminate.
    + simpl in Eb. eapply IH; eassumption.
  - destruct (lstrip s); [exact I | discriminate].
Qed.

End PyStrFacts.

(** ** Lists and lookups *)

Module ListFacts.

Lemma getitem_nth {A} (xs : list A) (i : nat) (d : A) :
  i < List.length xs -> getitem xs i = Ok (nth i xs d).
Proof.
  intros H. unfold getitem. now rewrite (nth_error_nth' xs d H).
Qed.

Lemma getitem_total {A} (xs : list A) (i : nat) :
  i < List.length xs -> exists x, getitem xs i = Ok x.
Proof.
  intros H. unfold getitem.
  destruct (nth_error xs i) eqn:E; [eauto|].
  apply nth_error_None in E. lia.
Qed.

(** Reading a list back through its positions. *)
Lemma map_nth_positions {A B} (g : A -> B) (xs : list A) (d : A) :
  map (fun i => g (nth i xs d)) (seq 0 (List.length xs)) = map g xs.
Proof.
  induction xs as [|x xs IH]; [reflexivity|].
  cbn [List.length seq map nth]. f_equal.
  rewrite <- seq_shift, map_map. exact IH.
Qed.

Lemma nth_map_in_range {A B} (f : A -> B) (xs : list A) (i : nat) (d : A) (e : B) :
  i < List.length xs -> nth i (map f xs) e = f (nth i xs d).
Proof.
  intros H. rewrite (nth_indep (map f xs) e (f d)).
  - apply map_nth.
  - now rewrite length_map.
Qed.

End ListFacts.

(** ** Pages *)

Module HtmlFacts.
Import Html PyStr PyStrFacts.


(** The header cells of a table whose rows below the first hold no
    [th]: they are the header cells of its first row. *)
Lemma find_all_th_first_row (name : string) (cls : list string)
      (r0 : node) (rs : list node) :
  is_tag "th" r0 = false ->
  Forall (fun r => is_tag "th" r = false /\ find_all "th" r = []) rs ->
  find_all "th" (Elem name cls (r0 :: rs)) = find_all "th" r0.
Proof.
  intros H0 Hrs. unfold find_all. cbn [descendants flat_map].
  rewrite filter_app. cbn [filter]. rewrite H0.
  assert (E : filter (is_tag "th")
                (flat_map (fun c => c :: descendants c) rs) = []).
  { induction Hrs as [|r rs' [Hr Hf] _ IH]; [reflexivity|].
    cbn [flat_map]. rewrite filter_app. cbn [filter]. rewrite Hr.
    unfold find_all in Hf. now rewrite Hf, IH. }
  rewrite E. apply app_nil_r.
Qed.

Lemma find_class_first (name cls : string) (soup t : node) :
  find_class name cls soup = Some t <->
  exists rest, find_all_class name cls soup = t :: rest.
Proof.
  unfold find_class. destruct (find_all_class name cls soup) as [|u rest].
  - split; [discriminate | intros [? ?]; discriminate].
  - split.
    + intros [= ->]. now exists rest.
    + intros [rest' [= -> _]]. reflexivity.
Qed.

Lemma find_class_none (name cls : string) (soup : node) :
  find_class name cls soup = None <->
  forall x, In x (descendants soup) ->
            is_tag name x && has_class cls x = false.
Proof.
  unfold find_class, find_all_class.
  destruct (filter _ (descendants soup)) as [|u rest] eqn:E.
  - split; [|reflexivity]. intros _ x Hx.
    destruct (is_tag name x && has_class cls x) eqn:Ex; [|reflexivity].
    assert (Hin : In x (filter (fun x => is_tag name x && has_class cls x)
                          (descendants soup)))
      by (apply filter_In; now split).
    rewrite E in Hin. contradiction.
  - split; [discriminate|]. intros H.
    assert (Hin : In u (filter (fun x => is_tag name x && has_class cls x)
                          (descendants soup)))
      by (rewrite E; now left).
    apply filter_In in Hin as [Hd Hu]. rewrite (H u Hd) in Hu. discriminate.
Qed.

End HtmlFacts.

(** ** The circuits pipeline *)

Module CircuitsFacts.
Import Html Frame Circuits Expected PyStr PyStrFacts ListFacts HtmlFacts.



Lemma parse_row_keeps (acc : lists6) (row : node) :
  qualifies row = true ->
  parse_row acc row =
  Ok (mkLists6 (circuits acc ++ [cell_text 0 row])
               (locations acc ++ [cell_text 4 row])
               (countries acc ++ [cell_text 5 row])
               (last_lengths acc ++ [cell_text 6 row])
               (circuit_laps acc ++ [cell_text 7 row])
               (seasons acc ++ [cell_text 9 row])).
Proof.
  unfold qualifies, cells, parse_row, cell_text, cells. intros H. rewrite H.
  apply Nat.leb_le in H.
  repeat (rewrite getitem_nth with (d := Text EmptyString) by lia; cbn [rbind]).
  reflexivity.
Qed.

Lemma parse_row_skips (acc : lists6) (row : node) :
  qualifies row = false -> parse_row acc row = Ok acc.
Proof.
  unfold qualifies, cells, parse_row. now intros ->.
Qed.

(** The row loop appends, list by list, the fields of the rows it
    keeps, in the order of the rows. *)
Lemma parse_rows_appends (rows : list node) (acc : lists6) :
  let kept := filter qualifies rows in
  parse_rows rows acc =
  Ok (mkLists6 (circuits acc ++ map (cell_text 0) kept)
               (locations acc ++ map (cell_text 4) kept)
               (countries acc ++ map (cell_text 5) kept)
               (last_lengths acc ++ map (cell_text 6) kept)
               (circuit_laps acc ++ map (cell_text 7) kept)
               (seasons acc ++ map (cell_text 9) kept)).
Proof.
  revert acc. induction rows as [|row rows IH]; intros acc; cbn [parse_rows filter].
  - cbn. rewrite !app_nil_r. now destruct acc.
  - destruct (qualifies row) eqn:Hq.
    + rewrite (parse_row_keeps acc row Hq). cbn [rbind]. rewrite IH.
      cbn [circuits locations countries last_lengths circuit_laps seasons map].
      now rewrite <- !app_assoc.
    + rewrite (parse_row_skips acc row Hq). cbn [rbind]. apply IH.
Qed.

(** What [parse_circuits_table] returns, for every table. *)
Lemma parse_circuits_table_frame (table : node) :
  let kept := filter qualifies (data_rows table) in
  parse_circuits_table table =
  Ok (mkDataFrame (List.length kept)
        [("circuit", map (cell_text 0) kept);
         ("location", map (cell_text 4) kept);
         ("country", map (cell_text 5) kept);
         ("last_length_used", map (cell_text 6) kept);
         ("circuit_laps", map (cell_text 7) kept);
         ("seasons", map (cell_text 9) kept)]).
Proof.
  intros kept. unfold parse_circuits_table.
  fold (data_rows table). rewrite parse_rows_appends. fold kept.
  cbn [rbind no_lists circuits locations countries last_lengths
       circuit_laps seasons app].
  unfold from_dict. cbn [forallb snd]. rewrite !length_map, Nat.eqb_refl.
  reflexivity.
Qed.

Lemma circuit_frame_records (kept : list node) :
  records EmptyString
    (mkDataFrame (List.length kept)
        [("circuit", map (cell_text 0) kept);
         ("location", map (cell_text 4) kept);
         ("country", map (cell_text 5) kept);
         ("last_length_used", map (cell_text 6) kept);
         ("circuit_laps", map (cell_text 7) kept);
         ("seasons", map (cell_text 9) kept)])
  = map circuit_record kept.
Proof.
  unfold records, row_at. cbn [nrows cols map fst snd].
  rewrite <- (map_nth_positions circuit_record kept (Text EmptyString)).
  apply map_ext_in. intros i Hi. apply in_seq in Hi.
  unfold circuit_record.
  now rewrite !nth_map_in_range with (d := Text EmptyString) by lia.
Qed.


End CircuitsFacts.

(** ** Frames *)

Module FrameFacts.
Import Frame PyStr PyStrFacts ListFacts.

Section Frames.
Context {A : Type}.
Implicit Types (df : DataFrame A) (cs : list (string * list A)).

Lemma unique_NoDup (xs : list string) : unique xs = true <-> NoDup xs.
Proof.
  induction xs as [|x xs IH]; cbn.
  - split; [constructor | reflexivity].
  - rewrite andb_true_iff, negb_true_iff, contains_false, IH. split.
    + intros [H1 H2]. now constructor.
    + intros H. now inversion H.
Qed.

Lemma combine_relabel (f : string -> string) cs :
  combine (map f (map fst cs)) (map snd cs)
  = map (fun c => (f (fst c), snd c)) cs.
Proof.
  induction cs as [|c cs IH]; cbn; [reflexivity | now rewrite IH].
Qed.

(** Renaming the columns through [f] never raises. *)
Lemma set_columns_map (f : string -> string) df :
  set_columns (map f (columns df)) df
  = Ok (mkDataFrame (nrows df) (map (fun c => (f (fst c), snd c)) (cols df))).
Proof.
  unfold set_columns, columns.
  rewrite !length_map, Nat.eqb_refl, combine_relabel. reflexivity.
Qed.

Lemma lookup_In label cs vs :
  lookup label cs = Some vs -> In (label, vs) cs.
Proof.
  unfold lookup. destruct (find _ cs) as [c|] eqn:E; [|discriminate].
  intros [= <-]. apply find_some in E as [Hin Heq].
  apply String.eqb_eq in Heq. subst label. now destruct c.
Qed.

Lemma lookup_None label cs :
  lookup label cs = None <-> ~ In label (map fst cs).
Proof.
  unfold lookup. induction cs as [|c cs IH]; cbn.
  - split; [tauto | reflexivity].
  - destruct (String.eqb (fst c) label) eqn:E.
    + apply String.eqb_eq in E. split; [discriminate | tauto].
    + apply String.eqb_neq in E. rewrite IH. tauto.
Qed.

Lemma lookup_has label df :
  has_column label df = true -> exists vs, lookup label (cols df) = Some vs.
Proof.
  unfold has_column, columns. intros H. apply contains_In in H.
  destruct (lookup label (cols df)) as [vs|] eqn:E; [eauto|].
  apply lookup_None in E. contradiction.
Qed.

Lemma has_column_In label df :
  has_column label df = true <-> In label (columns df).
Proof. apply contains_In. Qed.

(** With distinct labels the column behind a label is the only one. *)
Lemma lookup_unique label cs c :
  NoDup (map fst cs) -> In c cs -> fst c = label ->
  lookup label cs = Some (snd c).
Proof.
  unfold lookup. induction cs as [|c0 cs IH]; cbn; [tauto|].
  intros Hnd [-> | Hin] Hl.
  - subst label. now rewrite String.eqb_refl.
  - inversion Hnd as [|? ? Hnot Hnd']; subst.
    destruct (String.eqb (fst c0) (fst c)) eqn:E.
    + apply String.eqb_eq in E. exfalso. apply Hnot. rewrite E.
      now apply in_map.
    + now apply IH.
Qed.

Lemma filter_label_absent label cs :
  ~ In label (map fst cs) ->
  filter (fun c => String.eqb (fst c) label) cs = [].
Proof.
  induction cs as [|c cs IH]; cbn; [reflexivity|]. intros H.
  destruct (String.eqb (fst c) label) eqn:E.
  - apply String.eqb_eq in E. tauto.
  - apply IH. tauto.
Qed.

Lemma series_lookup (e : exn) label df :
  NoDup (columns df) -> has_column label df = true ->
  exists vs, lookup label (cols df) = Some vs /\ series e label df = Ok vs.
Proof.
  unfold series, columns, has_column, columns. intros Hnd Hin.
  apply contains_In in Hin. destruct df as [n cs]. cbn in *.
  induction cs as [|c cs IH]; cbn in *; [contradiction|].
  inversion Hnd as [|? ? Hnot Hnd']; subst. unfold lookup. cbn.
  destruct (String.eqb (fst c) label) eqn:E.
  - apply String.eqb_eq in E. subst label.
    rewrite (filter_label_absent _ _ Hnot). eauto.
  - destruct Hin as [Hc | Hin]; [apply String.eqb_neq in E; contradiction|].
    exact (IH Hnd' Hin).
Qed.


(** A label that heads exactly one column selects that column. *)
Lemma series_single (e : exn) label df :
  single label (cols df) = true -> has_column label df = true ->
  exists vs,
    lookup label (cols df) = Some vs
    /\ series e label df = Ok vs
    /\ forall c, In c (cols df) -> fst c = label -> snd c = vs.
Proof.
  unfold single, series, has_column, columns, lookup. intros Hs Hin.
  apply contains_In in Hin. apply Nat.leb_le in Hs.
  destruct (filter (fun c => String.eqb (fst c) label) (cols df))
    as [|c0 [|c1 rest]] eqn:E.
  - exfalso. apply in_map_iff in Hin as [c [Hc Hin]].
    assert (H : In c (filter (fun c => String.eqb (fst c) label) (cols df))).
    { apply filter_In. split; [assumption|]. subst label. apply String.eqb_refl. }
    rewrite E in H. contradiction.
  - exists (snd c0). repeat split.
    + clear Hin Hs. induction (cols df) as [|c cs IH]; [discriminate|].
      cbn in E |- *. destruct (String.eqb (fst c) label).
      * now injection E as ->.
      * now apply IH.
    + intros c Hc Hl.
      assert (H : In c (filter (fun c => String.eqb (fst c) label) (cols df))).
      { apply filter_In. split; [assumption|]. subst label. apply String.eqb_refl. }
      rewrite E in H. destruct H as [<- | []]. reflexivity.
  - cbn in Hs. lia.
Qed.

(** A label that heads several columns does not select a Series. *)
Lemma series_several (e : exn) label df :
  single label (cols df) = false -> series e label df = Raise e.
Proof.
  unfold single, series. intros Hs. apply Nat.leb_gt in Hs.
  destruct (filter (fun c => String.eqb (fst c) label) (cols df))
    as [|c0 [|c1 rest]]; cbn in Hs; try lia. reflexivity.
Qed.

Lemma series_total (e : exn) label df :
  NoDup (columns df) -> has_column label df = true ->
  exists vs, series e label df = Ok vs.
Proof.
  intros Hnd Hin. destruct (series_lookup e label df Hnd Hin) as [vs [_ H]].
  eauto.
Qed.

(** Assignment through a label that is there rewrites that column. *)
Lemma setitem_present label vs df :
  has_column label df = true ->
  setitem label vs df
  = mkDataFrame (nrows df)
      (map (fun c => if String.eqb (fst c) label then (fst c, vs) else c)
           (cols df)).
Proof. unfold setitem. now intros ->. Qed.

Lemma setitem_absent label vs df :
  has_column label df = false ->
  setitem label vs df = mkDataFrame (nrows df) (cols df ++ [(label, vs)]).
Proof. unfold setitem. now intros ->. Qed.

Lemma columns_setitem_present label vs df :
  has_column label df = true -> columns (setitem label vs df) = columns df.
Proof.
  intros H. rewrite (setitem_present _ _ _ H). unfold columns. cbn.
  rewrite map_map. apply map_ext. intros c.
  now destruct (String.eqb (fst c) label).
Qed.

Lemma nrows_setitem label vs df : nrows (setitem label vs df) = nrows df.
Proof. unfold setitem. now destruct (has_column label df). Qed.

Lemma wf_setitem label vs df :
  wf df -> List.length vs = nrows df -> wf (setitem label vs df).
Proof.
  unfold wf, setitem. intros Hwf Hlen.
  destruct (has_column label df); cbn.
  - apply Forall_map. eapply Forall_impl; [|exact Hwf]. intros c Hc.
    now destruct (String.eqb (fst c) label).
  - apply Forall_app. split; [assumption | now constructor].
Qed.

Lemma wf_setitem_scalar label (v : A) df :
  wf df -> wf (setitem_scalar label v df).
Proof.
  intros H. apply wf_setitem; [assumption | apply repeat_length].
Qed.

Lemma drop_present label df :
  has_column label df = true ->
  drop label df
  = Ok (mkDataFrame (nrows df)
          (filter (fun c => negb (String.eqb (fst c) label)) (cols df))).
Proof. unfold drop. now intros ->. Qed.

End Frames.

Lemma single_map {A B} (F : string * list A -> string * list B)
      label (cs : list (string * list A)) :
  (forall c, fst (F c) = fst c) ->
  single label (map F cs) = single label cs.
Proof.
  intros HF. unfold single. f_equal.
  induction cs as [|c cs IH]; [reflexivity|]. cbn. rewrite HF.
  destruct (String.eqb (fst c) label); cbn; now rewrite IH.
Qed.

(** Relabelling-free maps over the columns keep the labels. *)
Lemma has_column_map {A B} (F : string * list A -> string * list B)
      label n m (cs : list (string * list A)) :
  (forall c, fst (F c) = fst c) ->
  has_column label (mkDataFrame n (map F cs))
  = has_column label (mkDataFrame m cs).
Proof.
  intros HF. unfold has_column, columns. cbn [cols].
  rewrite map_map. now rewrite (map_ext _ fst HF).
Qed.

Lemma applymap_cols {A B} (f : A -> B) (df : DataFrame A) :
  applymap f df
  = mkDataFrame (nrows df) (map (fun c => (fst c, map f (snd c))) (cols df)).
Proof. reflexivity. Qed.

End FrameFacts.

(** ** The results pipeline: cleaning *)

Module CleanFacts.
Import Frame Winners ExpectedWinners PyStr PyStrFacts ListFacts FrameFacts.

Section Clean.

Variable float64 : Type.
Variable parse_numeric : string -> option (num float64).
Variable str_of_float : float64 -> string.

Local Notation value := (value float64).
Local Notation cell := (cell float64).
Local Notation clean := (clean_data parse_numeric str_of_float).
Local Notation cleaned := (cleaned_column parse_numeric str_of_float).
Local Notation laps_column := (laps_column parse_numeric).

Implicit Types (df : DataFrame value) (cs : list (string * list value)).



Lemma fst_laps_column c : fst (laps_column c) = fst c.
Proof. unfold laps_column. now destruct (String.eqb (fst c) "laps"). Qed.

Lemma several_has label cs n :
  single label cs = false -> has_column label (mkDataFrame n cs) = true.
Proof.
  unfold single. intros Hs. apply Nat.leb_gt in Hs.
  destruct (filter (fun c => String.eqb (fst c) label) cs) as [|c rest] eqn:E;
    [cbn in Hs; lia|].
  assert (H : In c (filter (fun c => String.eqb (fst c) label) cs))
    by (rewrite E; now left).
  apply filter_In in H as [Hin Hl]. apply String.eqb_eq in Hl.
  apply has_column_In. unfold columns. cbn [cols]. rewrite <- Hl.
  now apply in_map.
Qed.

Lemma laps_step cs n :
  single "laps" cs = true ->
  (if has_column "laps" (mkDataFrame n cs)
   then rbind (series TypeError "laps" (mkDataFrame n cs))
          (fun laps => Ok (setitem "laps" (map (to_numeric parse_numeric) laps)
                             (mkDataFrame n cs)))
   else Ok (mkDataFrame n cs))
  = Ok (mkDataFrame n (map laps_column cs)).
Proof.
  intros Hs. destruct (has_column "laps" (mkDataFrame n cs)) eqn:Hl.
  - destruct (series_single TypeError "laps" (mkDataFrame n cs) Hs Hl)
      as [vs [_ [-> Hvs]]].
    cbn [rbind]. rewrite (setitem_present _ _ _ Hl). cbn [nrows cols].
    do 2 f_equal. apply map_ext_in. intros c Hc. unfold laps_column.
    destruct (String.eqb (fst c) "laps") eqn:E; [|reflexivity].
    apply String.eqb_eq in E. now rewrite (Hvs c Hc E).
  - do 2 f_equal. rewrite <- (map_id cs) at 1. apply map_ext_in.
    intros c Hc. unfold laps_column.
    destruct (String.eqb (fst c) "laps") eqn:E; [|reflexivity].
    apply String.eqb_eq in E. exfalso.
    apply not_true_iff_false in Hl. apply Hl. apply has_column_In.
    unfold columns. cbn. rewrite <- E. now apply in_map.
Qed.

Lemma laps_step_raises cs n :
  single "laps" cs = false ->
  (if has_column "laps" (mkDataFrame n cs)
   then rbind (series TypeError "laps" (mkDataFrame n cs))
          (fun laps => Ok (setitem "laps" (map (to_numeric parse_numeric) laps)
                             (mkDataFrame n cs)))
   else Ok (mkDataFrame n cs))
  = Raise TypeError.
Proof.
  intros Hs. rewrite (several_has _ _ n Hs).
  now rewrite (series_several TypeError "laps" (mkDataFrame n cs) Hs).
Qed.

Lemma lookup_laps_column label cs :
  label <> "laps"%string -> lookup label (map laps_column cs) = lookup label cs.
Proof.
  intros Hne. unfold lookup. induction cs as [|c cs IH]; [reflexivity|].
  cbn [map find]. rewrite fst_laps_column.
  destruct (String.eqb (fst c) label) eqn:E; [|exact IH].
  unfold laps_column. destruct (String.eqb (fst c) "laps") eqn:El; [|reflexivity].
  apply String.eqb_eq in E, El. congruence.
Qed.

Lemma filter_map_agree {X Y} (p : Y -> bool) (f g : X -> Y) (xs : list X) :
  (forall x, In x xs -> p (f x) = p (g x) /\ (p (g x) = true -> f x = g x)) ->
  filter p (map f xs) = filter p (map g xs).
Proof.
  induction xs as [|x xs IH]; intros H; [reflexivity|]. cbn.
  destruct (H x (or_introl eq_refl)) as [Hp Hfg]. rewrite Hp.
  rewrite IH by (intros y Hy; apply H; now right).
  destruct (p (g x)); [now rewrite Hfg | reflexivity].
Qed.


(** The date step on a frame with distinct labels that has both a
    date and a year column. *)
Lemma date_step cs n ds ys :
  single "full_date" cs = true ->
  lookup "date" cs = Some ds ->
  let df := mkDataFrame n cs in
  let helper := map (fun p => VStr (full_date str_of_float (fst p) (snd p)))
                    (combine ds ys) in
  rbind (series ValueError "full_date" (setitem "full_date" helper df))
    (fun h => drop "full_date"
                (setitem "date" (map to_datetime_value h)
                   (applymap Raw (setitem "full_date" helper df))))
  = Ok (mkDataFrame n
          (filter keeps
             (map (date_column (map to_datetime_value helper)) cs))).
Proof.
  intros Hsingle Hd df helper.
  assert (Hdate : In "date"%string (map fst cs)).
  { apply lookup_In in Hd. now apply (in_map fst) in Hd. }
  destruct (has_column "full_date" df) eqn:Hfd.
  - (* the helper label is already a column: it is overwritten *)
    pose proof (columns_setitem_present "full_date" helper df Hfd) as Hcols.
    assert (Hs' : single "full_date" (cols (setitem "full_date" helper df)) = true).
    { rewrite (setitem_present _ _ _ Hfd). cbn [cols].
      rewrite single_map; [exact Hsingle|].
      intros c. now destruct (String.eqb (fst c) "full_date"). }
    assert (Hfd' : has_column "full_date" (setitem "full_date" helper df) = true)
      by (unfold has_column; rewrite Hcols; exact Hfd).
    destruct (series_single ValueError "full_date" _ Hs' Hfd')
      as [h [Hlk [-> _]]].
    cbn [rbind].
    assert (Hh : h = helper).
    { apply lookup_In in Hlk. rewrite (setitem_present _ _ _ Hfd) in Hlk.
      cbn [cols] in Hlk. apply in_map_iff in Hlk as [c [Hc _]].
      destruct (String.eqb (fst c) "full_date") eqn:E.
      - now injection Hc as _ <-.
      - destruct c as [l v]. injection Hc as -> _. cbn in E.
        discriminate. }
    subst h. rewrite (setitem_present _ _ _ Hfd), applymap_cols.
    cbn [nrows cols df]. rewrite map_map.
    set (F := fun x : string * list value =>
                (fst (if String.eqb (fst x) "full_date" then (fst x, helper) else x),
                 map Raw
                   (snd (if String.eqb (fst x) "full_date"
                         then (fst x, helper) else x)))).
    assert (HF : forall c, fst (F c) = fst c).
    { intros c. unfold F. cbn [fst].
      now destruct (String.eqb (fst c) "full_date"). }
    rewrite setitem_present
      by (rewrite (has_column_map F "date" n n cs HF);
          now apply has_column_In).
    cbn [nrows cols]. rewrite map_map.
    set (G := fun x => if String.eqb (fst (F x)) "date"
                       then (fst (F x), map to_datetime_value helper)
                       else F x).
    assert (HG : forall c, fst (G c) = fst c).
    { intros c. unfold G. destruct (String.eqb (fst (F c)) "date"); apply HF. }
    rewrite drop_present
      by (rewrite (has_column_map G "full_date" n n cs HG); exact Hfd).
    cbn [nrows cols]. do 2 f_equal. fold (keeps (float64:=float64)).
    apply filter_map_agree. intros c Hc. unfold keeps.
    rewrite HG. unfold date_column.
    assert (Hl : fst (if String.eqb (fst c) "date"
                      then (fst c, map to_datetime_value helper)
                      else (fst c, map Raw (snd c))) = fst c)
      by now destruct (String.eqb (fst c) "date").
    rewrite Hl. split; [reflexivity|]. intros Hk.
    apply negb_true_iff in Hk. unfold G. rewrite HF. unfold F. rewrite Hk.
    reflexivity.
  - (* the helper label is new: it is appended, then dropped *)
    assert (Hnot : ~ In "full_date"%string (map fst cs)).
    { apply contains_false. exact Hfd. }
    rewrite (setitem_absent _ _ _ Hfd). cbn [nrows cols df].
    assert (Hs : series ValueError "full_date"
                   (mkDataFrame n (cs ++ [("full_date"%string, helper)]))
                 = Ok helper).
    { unfold series. cbn [cols]. rewrite filter_app.
      rewrite (filter_label_absent _ _ Hnot). reflexivity. }
    rewrite Hs. cbn [rbind]. rewrite applymap_cols. cbn [nrows cols].
    set (F := fun c : string * list value => (fst c, map Raw (snd c))).
    assert (HF : forall c, fst (F c) = fst c) by reflexivity.
    rewrite setitem_present.
    2:{ rewrite (has_column_map F "date" n n _ HF). apply has_column_In.
        unfold columns. cbn [cols]. rewrite map_app. apply in_or_app. now left. }
    cbn [nrows cols]. rewrite map_map.
    set (G := fun x => if String.eqb (fst (F x)) "date"
                       then (fst (F x), map to_datetime_value helper)
                       else F x).
    assert (HG : forall c, fst (G c) = fst c).
    { intros c. unfold G. now destruct (String.eqb (fst (F c)) "date"). }
    rewrite drop_present.
    2:{ rewrite (has_column_map G "full_date" n n _ HG). apply has_column_In.
        unfold columns. cbn [cols]. rewrite map_app. apply in_or_app.
        right. now left. }
    cbn [nrows cols]. do 2 f_equal. fold (keeps (float64:=float64)).
    rewrite map_app, filter_app. cbn [map filter].
    unfold keeps at 2. rewrite HG. cbn [fst String.eqb Ascii.eqb Bool.eqb negb].
    rewrite app_nil_r. reflexivity.
Qed.

Lemma to_datetime_helper (ds ys : list value) :
  map to_datetime_value
    (map (fun p => VStr (full_date str_of_float (fst p) (snd p)))
         (combine ds ys))
  = map (fun p => combine_date str_of_float (fst p) (snd p)) (combine ds ys).
Proof. rewrite map_map. reflexivity. Qed.

Lemma date_step_raises cs n helper :
  single "full_date" cs = false ->
  rbind (series ValueError "full_date"
           (setitem "full_date" helper (mkDataFrame n cs)))
    (fun h => drop "full_date"
                (setitem "date" (map to_datetime_value h)
                   (applymap Raw (setitem "full_date" helper (mkDataFrame n cs)))))
  = Raise ValueError.
Proof.
  intros Hs. pose proof (several_has _ _ n Hs) as Hfd.
  rewrite (setitem_present _ _ _ Hfd). cbn [nrows cols].
  rewrite series_several; [reflexivity|]. cbn [cols].
  rewrite single_map; [exact Hs|].
  intros c. now destruct (String.eqb (fst c) "full_date").
Qed.


(** What [clean_data] returns when the labels it reads head one column
    each: every column cleaned on its own, the helper label gone when
    the date step ran. *)
Lemma clean_data_frame df :
  let cs := renamed df in
  let out := map (cleaned (lookup "year" cs)) cs in
  readable cs = true ->
  clean df
  = Ok (mkDataFrame (nrows df)
          (if has_column "date" (mkDataFrame (nrows df) cs)
              && has_column "year" (mkDataFrame (nrows df) cs)
           then filter keeps out else out)).
Proof.
  intros cs out Hread. unfold clean_data.
  rewrite set_columns_map. fold (renamed df). fold cs. cbn [rbind].
  unfold readable in Hread. apply andb_true_iff in Hread as [Hlaps Hrest].
  change (contains "date" (map fst cs))
    with (has_column "date" (mkDataFrame (nrows df) cs)) in Hrest.
  change (contains "year" (map fst cs))
    with (has_column "year" (mkDataFrame (nrows df) cs)) in Hrest.
  rewrite (laps_step cs (nrows df) Hlaps). cbn [rbind].
  set (cs2 := map laps_column cs).
  rewrite !(has_column_map laps_column _ (nrows df) (nrows df) cs fst_laps_column).
  destruct (has_column "date" (mkDataFrame (nrows df) cs)) eqn:Hd;
    destruct (has_column "year" (mkDataFrame (nrows df) cs)) eqn:Hy;
    cbn [andb] in *.
  - (* date and year: the date step runs *)
    apply andb_true_iff in Hrest as [Hrest Hsf].
    apply andb_true_iff in Hrest as [Hsd Hsy].
    assert (Hd2 : has_column "date" (mkDataFrame (nrows df) cs2) = true)
      by (unfold cs2; now rewrite (has_column_map laps_column _ _ (nrows df) cs fst_laps_column)).
    assert (Hy2 : has_column "year" (mkDataFrame (nrows df) cs2) = true)
      by (unfold cs2; now rewrite (has_column_map laps_column _ _ (nrows df) cs fst_laps_column)).
    assert (Hsd2 : single "date" cs2 = true)
      by (unfold cs2; now rewrite (single_map laps_column _ cs fst_laps_column)).
    assert (Hsy2 : single "year" cs2 = true)
      by (unfold cs2; now rewrite (single_map laps_column _ cs fst_laps_column)).
    assert (Hsf2 : single "full_date" cs2 = true)
      by (unfold cs2; now rewrite (single_map laps_column _ cs fst_laps_column)).
    destruct (series_single ValueError "date" (mkDataFrame (nrows df) cs2) Hsd2 Hd2)
      as [ds [Hlds [-> _]]].
    destruct (series_single ValueError "year" (mkDataFrame (nrows df) cs2) Hsy2 Hy2)
      as [ys [Hlys [-> _]]].
    cbn [rbind cols] in *.
    rewrite (date_step cs2 (nrows df) ds ys Hsf2 Hlds).
    do 3 f_equal. unfold out, cs2. rewrite map_map.
    unfold cs2 in Hlds, Hlys.
    rewrite lookup_laps_column in Hlds, Hlys by discriminate.
    rewrite Hlys.
    destruct (series_single ValueError "date" (mkDataFrame (nrows df) cs) Hsd Hd)
      as [ds' [Hlds' [_ Hdates]]].
    cbn [cols] in Hlds', Hdates. rewrite Hlds in Hlds'. injection Hlds' as <-.
    apply map_ext_in. intros c Hc.
    unfold date_column, laps_column, cleaned_column.
    destruct (String.eqb (fst c) "laps") eqn:El; cbn [fst snd].
    + apply String.eqb_eq in El. rewrite El. cbn.
      now rewrite map_map.
    + destruct (String.eqb (fst c) "date") eqn:Ed; [|reflexivity].
      apply String.eqb_eq in Ed.
      rewrite (Hdates c Hc Ed). now rewrite to_datetime_helper.
  - (* a date column and no year column *)
    f_equal. unfold out, cs2. rewrite applymap_cols. cbn [nrows cols].
    f_equal. rewrite map_map.
    assert (Hno : lookup "year" cs = None).
    { apply lookup_None. apply contains_false. exact Hy. }
    rewrite Hno. apply map_ext. intros c.
    unfold laps_column, cleaned_column.
    destruct (String.eqb (fst c) "laps"); cbn [fst snd].
    + now rewrite map_map.
    + now destruct (String.eqb (fst c) "date").
  - (* no date column *)
    f_equal. unfold out, cs2. rewrite applymap_cols. cbn [nrows cols].
    f_equal. rewrite map_map. apply map_ext_in. intros c Hc.
    unfold laps_column, cleaned_column.
    destruct (String.eqb (fst c) "laps") eqn:El; cbn [fst snd].
    + now rewrite map_map.
    + destruct (String.eqb (fst c) "date") eqn:Ed; [|reflexivity].
      apply String.eqb_eq in Ed. exfalso.
      apply not_true_iff_false in Hd. apply Hd. apply has_column_In.
      unfold columns. cbn [cols]. rewrite <- Ed. now apply in_map.
  - f_equal. unfold out, cs2. rewrite applymap_cols. cbn [nrows cols].
    f_equal. rewrite map_map. apply map_ext_in. intros c Hc.
    unfold laps_column, cleaned_column.
    destruct (String.eqb (fst c) "laps") eqn:El; cbn [fst snd].
    + now rewrite map_map.
    + destruct (String.eqb (fst c) "date") eqn:Ed; [|reflexivity].
      apply String.eqb_eq in Ed. exfalso.
      apply not_true_iff_false in Hd. apply Hd. apply has_column_In.
      unfold columns. cbn [cols]. rewrite <- Ed. now apply in_map.
Qed.

(** In every other case [clean_data] raises. *)
Lemma clean_data_raises df :
  readable (renamed df) = false -> exists e, clean df = Raise e.
Proof.
  intros Hread. unfold clean_data.
  rewrite set_columns_map. fold (renamed df). cbn [rbind].
  set (cs := renamed df) in *. unfold readable in Hread.
  destruct (single "laps" cs) eqn:Hlaps.
  - cbn [andb] in Hread.
    rewrite (laps_step cs (nrows df) Hlaps). cbn [rbind].
    set (cs2 := map laps_column cs).
    rewrite !(has_column_map laps_column _ (nrows df) (nrows df) cs fst_laps_column).
    change (has_column "date" (mkDataFrame (nrows df) cs))
      with (contains "date" (map fst cs)).
    change (has_column "year" (mkDataFrame (nrows df) cs))
      with (contains "year" (map fst cs)).
    destruct (contains "date" (map fst cs) && contains "year" (map fst cs))
      eqn:Hboth; [|discriminate].
    apply andb_true_iff in Hboth as [Hd Hy].
    assert (Hd2 : has_column "date" (mkDataFrame (nrows df) cs2) = true)
      by (unfold cs2; rewrite (has_column_map laps_column _ _ (nrows df) cs fst_laps_column); exact Hd).
    assert (Hy2 : has_column "year" (mkDataFrame (nrows df) cs2) = true)
      by (unfold cs2; rewrite (has_column_map laps_column _ _ (nrows df) cs fst_laps_column); exact Hy).
    destruct (single "date" cs) eqn:Hsd.
    + assert (Hsd2 : single "date" cs2 = true)
        by (unfold cs2; now rewrite (single_map laps_column _ cs fst_laps_column)).
      destruct (series_single ValueError "date" (mkDataFrame (nrows df) cs2) Hsd2 Hd2)
        as [ds [_ [-> _]]]. cbn [rbind].
      destruct (single "year" cs) eqn:Hsy.
      * assert (Hsy2 : single "year" cs2 = true)
          by (unfold cs2; now rewrite (single_map laps_column _ cs fst_laps_column)).
        destruct (series_single ValueError "year" (mkDataFrame (nrows df) cs2) Hsy2 Hy2)
          as [ys [_ [-> _]]]. cbn [rbind].
        cbn [andb] in Hread.
        assert (Hsf2 : single "full_date" cs2 = false)
          by (unfold cs2; now rewrite (single_map laps_column _ cs fst_laps_column)).
        rewrite (date_step_raises cs2 (nrows df) _ Hsf2). eauto.
      * assert (Hsy2 : single "year" cs2 = false)
          by (unfold cs2; now rewrite (single_map laps_column _ cs fst_laps_column)).
        rewrite (series_several ValueError "year" (mkDataFrame (nrows df) cs2) Hsy2).
        cbn [rbind]. eauto.
    + assert (Hsd2 : single "date" cs2 = false)
        by (unfold cs2; now rewrite (single_map laps_column _ cs fst_laps_column)).
      rewrite (series_several ValueError "date" (mkDataFrame (nrows df) cs2) Hsd2).
      cbn [rbind]. eauto.
  - rewrite (laps_step_raises cs (nrows df) Hlaps). cbn [rbind]. eauto.
Qed.

Lemma fst_cleaned_column year c : fst (cleaned year c) = fst c.
Proof.
  unfold cleaned_column. destruct (String.eqb (fst c) "laps"); [reflexivity|].
  destruct (String.eqb (fst c) "date"); [|reflexivity].
  now destruct year.
Qed.

End Clean.

End CleanFacts.

(** ** Dates *)

Module StrptimeFacts.
Import PyStr PyStrFacts Strptime.


Lemma is_digit_lower_char (c : ascii) : is_digit (lower_char c) = is_digit c.
Proof. destruct c as [[] [] [] [] [] [] [] []]; reflexivity. Qed.

Lemma is_digit_not_space (c : ascii) : is_digit c = true -> isspace c = false.
Proof. destruct c as [[] [] [] [] [] [] [] []]; vm_compute; congruence. Qed.






















End StrptimeFacts.

(** ** The results pipeline: the session *)

Module SessionFacts.
Import Html Frame Winners ExpectedWinners PyStr PyStrFacts ListFacts FrameFacts.

Section Session.

Variable float64 : Type.
Variable read_html : node -> result (list (DataFrame (value float64))).
Variable web : nat -> string -> result node.

Local Notation value := (value float64).
Local Notation event := (event float64).
Local Notation session := (session float64).
Local Notation outcome := (period_outcome read_html web).
Local Notation events := (period_events web).

(** One period, start to end. *)
Lemma scrape_year_run (year : Z) (st : session) :
  scrape_year read_html web year st
  = (outcome (loads st) year,
     mkSession (S (loads st)) (period_page web (loads st) (page st))
               (log st ++ events (loads st) year)).
Proof.
  unfold scrape_year, period_outcome, period_events, period_page.
  unfold bind, print, sleep, emit, driver_get, page_source, lift, ret.
  cbn [loads page log].
  destruct (web (loads st) "https://") as [p|e]; cbn [loads page log].
  - destruct (find_class "table" "f1-table" p) as [table|]; cbn [loads page log].
    + destruct (read_html table) as [frames|e]; cbn.
      * destruct (getitem frames 0); cbn; now rewrite <- !app_assoc.
      * now rewrite <- !app_assoc.
    + now rewrite <- !app_assoc.
  - now rewrite <- !app_assoc.
Qed.

Lemma period_events_quiet (n : nat) (year : Z) :
  forallb (@quiet float64) (events n year) = true.
Proof.
  unfold period_events. cbn.
  destruct (web n "https://") as [p|e]; [|reflexivity]. cbn.
  now destruct (find_class "table" "f1-table" p).
Qed.

Lemma loop_events_quiet (n : nat) (years : list Z) :
  forallb (@quiet float64) (loop_events read_html web n years) = true.
Proof.
  revert n. induction years as [|y ys IH]; intros n; [reflexivity|].
  cbn [loop_events]. rewrite forallb_app, period_events_quiet.
  destruct (outcome n y); [apply IH | reflexivity].
Qed.

(** The period loop, start to end. *)
Lemma scrape_years_run (years : list Z) (acc : list (DataFrame value))
      (st : session) :
  let out := scrape_years read_html web years acc st in
  fst out = loop_outcome read_html web (loads st) years acc
  /\ log (snd out) = log st ++ loop_events read_html web (loads st) years.
Proof.
  revert acc st. induction years as [|y ys IH]; intros acc st.
  - cbn. now rewrite app_nil_r.
  - cbn [scrape_years loop_outcome loop_events]. unfold bind.
    rewrite scrape_year_run.
    destruct (outcome (loads st) y) as [[df|]|e]; cbv beta iota zeta.
    + destruct (IH (acc ++ [df])
                  (mkSession (S (loads st)) (period_page web (loads st) (page st))
                     (log st ++ events (loads st) y))) as [H1 H2].
      cbn [loads log] in H1, H2. now rewrite H1, H2, app_assoc.
    + destruct (IH acc
                  (mkSession (S (loads st)) (period_page web (loads st) (page st))
                     (log st ++ events (loads st) y))) as [H1 H2].
      cbn [loads log] in H1, H2. now rewrite H1, H2, app_assoc.
    + cbn [fst snd log]. now rewrite app_nil_r.
Qed.

(** The loop gathers its frames behind the ones it is given. *)
Lemma loop_outcome_collected (n : nat) (years : list Z)
      (acc frames : list (DataFrame value)) :
  loop_outcome read_html web n years acc = Ok frames ->
  frames = acc ++ collected read_html web n years
  /\ all_periods_return read_html web n years.
Proof.
  revert n acc. induction years as [|y ys IH]; intros n acc; cbn.
  - intros [= <-]. now rewrite app_nil_r.
  - destruct (outcome n y) as [[df|]|e]; [| |discriminate]; intros H;
      apply IH in H as [-> Hall].
    + rewrite <- app_assoc. split; [reflexivity|]. split; [eauto | assumption].
    + split; [reflexivity|]. split; [eauto | assumption].
Qed.

Lemma loop_outcome_returns (n : nat) (years : list Z)
      (acc : list (DataFrame value)) :
  all_periods_return read_html web n years ->
  loop_outcome read_html web n years acc
  = Ok (acc ++ collected read_html web n years).
Proof.
  revert n acc. induction years as [|y ys IH]; intros n acc; cbn.
  - intros _. now rewrite app_nil_r.
  - intros [[o Ho] Hall]. rewrite Ho. destruct o as [df|].
    + rewrite (IH _ _ Hall). now rewrite <- app_assoc.
    + exact (IH _ _ Hall).
Qed.

Lemma loop_outcome_raises (n : nat) (years : list Z)
      (acc : list (DataFrame value)) (e : exn) :
  loop_outcome read_html web n years acc = Raise e ->
  ~ all_periods_return read_html web n years.
Proof.
  intros H Hall. rewrite (loop_outcome_returns _ _ _ Hall) in H. discriminate.
Qed.

(** Frames of earlier periods come before frames of later ones. *)
Lemma collected_app (n : nat) (ys1 ys2 : list Z) :
  collected read_html web n (ys1 ++ ys2)
  = collected read_html web n ys1
    ++ collected read_html web (n + List.length ys1) ys2.
Proof.
  revert n. induction ys1 as [|y ys1 IH]; intros n; cbn.
  - now rewrite Nat.add_0_r.
  - rewrite IH, Nat.add_succ_r. cbn.
    now destruct (outcome n y) as [[df|]|e].
Qed.

Lemma scrape_all_unfold (years : list Z) (st : session) :
  scrape_all read_html web years st
  = match scrape_years read_html web years []
            (mkSession (loads st) (page st) (log st ++ [Launch])) with
    | (Ok frames, s') =>
        (match frames with
         | [] => Ok empty_frame
         | _ => concat VNaN frames
         end,
         mkSession (loads s') (page s') (log s' ++ [Quit]))
    | (Raise e, s') => (Raise e, s')
    end.
Proof.
  unfold scrape_all, init_driver, driver_quit, bind, emit, lift, ret.
  destruct (scrape_years read_html web years [] _) as [[frames|e] s'];
    [now destruct frames | reflexivity].
Qed.

(** The whole run, start to end. *)
Lemma scrape_all_run (years : list Z) (st : session) :
  let out := scrape_all read_html web years st in
  match loop_outcome read_html web (loads st) years [] with
  | Raise e =>
      fst out = Raise e
      /\ log (snd out)
         = log st ++ [Launch] ++ loop_events read_html web (loads st) years
  | Ok frames =>
      fst out = match frames with
                | [] => Ok empty_frame
                | _ => concat VNaN frames
                end
      /\ log (snd out)
         = log st ++ [Launch] ++ loop_events read_html web (loads st) years
           ++ [Quit]
  end.
Proof.
  cbn zeta. rewrite scrape_all_unfold.
  pose proof (scrape_years_run years []
                (mkSession (loads st) (page st) (log st ++ [Launch])))
    as [H1 H2].
  cbn [loads log] in H1, H2.
  destruct (scrape_years read_html web years []
              (mkSession (loads st) (page st) (log st ++ [Launch])))
    as [r st'].
  cbn [fst snd] in H1, H2. rewrite <- H1.
  destruct r as [frames|e]; cbn [fst snd log]; rewrite H2, <- !app_assoc;
    split; reflexivity.
Qed.

End Session.

End SessionFacts.

(** ** Concatenation keeps the records in order *)

Module ConcatFacts.
Import Frame ExpectedWinners PyStr PyStrFacts ListFacts FrameFacts.

Section Concat.
Context {A : Type}.
Variable nan : A.
Implicit Types (df f : DataFrame A) (cs : list (string * list A)).

Lemma labels_eqb_eq (xs ys : list string) :
  labels_eqb xs ys = true <-> xs = ys.
Proof.
  unfold labels_eqb. revert ys.
  induction xs as [|x xs IH]; intros [|y ys]; cbn [List.length combine forallb fst snd].
  - split; reflexivity.
  - split; discriminate.
  - split; discriminate.
  - change (S (List.length xs) =? S (List.length ys))
      with (List.length xs =? List.length ys).
    specialize (IH ys). rewrite andb_true_iff in IH.
    rewrite !andb_true_iff, String.eqb_eq. split.
    + intros [Hlen [-> Hall]]. f_equal. apply IH. now split.
    + intros [= -> ->]. destruct IH as [_ IH].
      destruct (IH eq_refl) as [Hlen Hall]. now repeat split.
Qed.

Lemma seq_add (n s k : nat) :
  seq (n + s) k = map (Nat.add n) (seq s k).
Proof.
  revert s. induction k as [|k IH]; intros s; cbn; [reflexivity|].
  f_equal. rewrite <- IH. f_equal. lia.
Qed.

Lemma stack_cons c1 c2 cs1 cs2 :
  stack (c1 :: cs1) (c2 :: cs2)
  = (fst c1, snd c1 ++ snd c2) :: stack cs1 cs2.
Proof. reflexivity. Qed.

Lemma fst_stack cs1 cs2 :
  map fst cs1 = map fst cs2 -> map fst (stack cs1 cs2) = map fst cs1.
Proof.
  revert cs2. induction cs1 as [|c cs1 IH]; intros [|c2 cs2];
    try (cbn; congruence).
  rewrite stack_cons. cbn [map fst]. intros [= Hc Hcs]. f_equal. now apply IH.
Qed.

Lemma stack_lengths cs1 cs2 n1 n2 :
  Forall (fun c => List.length (snd c) = n1) cs1 ->
  Forall (fun c => List.length (snd c) = n2) cs2 ->
  Forall (fun c => List.length (snd c) = n1 + n2) (stack cs1 cs2).
Proof.
  intros H1. revert cs2. induction H1 as [|c cs1 Hc _ IH]; intros cs2 H2.
  - constructor.
  - destruct H2 as [|c2 cs2 Hc2 H2]; [constructor|]. rewrite stack_cons.
    constructor.
    + cbn [snd]. rewrite length_app. lia.
    + now apply IH.
Qed.

(** A row of two stacked blocks is a row of the upper one ... *)
Lemma row_stack_upper cs1 cs2 n1 i :
  map fst cs1 = map fst cs2 ->
  Forall (fun c => List.length (snd c) = n1) cs1 ->
  i < n1 ->
  map (fun c => (fst c, nth i (snd c) nan)) (stack cs1 cs2)
  = map (fun c => (fst c, nth i (snd c) nan)) cs1.
Proof.
  intros Hl H1 Hi. revert cs2 Hl.
  induction H1 as [|c cs1 Hc _ IH]; intros [|c2 cs2]; try (cbn; congruence).
  rewrite stack_cons. cbn [map fst snd].
  intros [= _ Hcs]. rewrite (IH _ Hcs). f_equal. f_equal.
  apply app_nth1. lia.
Qed.

(** ... or of the lower one. *)
Lemma row_stack_lower cs1 cs2 n1 i :
  map fst cs1 = map fst cs2 ->
  Forall (fun c => List.length (snd c) = n1) cs1 ->
  map (fun c => (fst c, nth (n1 + i) (snd c) nan)) (stack cs1 cs2)
  = map (fun c => (fst c, nth i (snd c) nan)) cs2.
Proof.
  intros Hl H1. revert cs2 Hl.
  induction H1 as [|c cs1 Hc _ IH]; intros [|c2 cs2]; try (cbn; congruence).
  rewrite stack_cons. cbn [map fst snd].
  intros [= Hc1 Hcs]. rewrite (IH _ Hcs). f_equal.
  rewrite Hc1. f_equal. rewrite <- Hc. apply app_nth2_plus.
Qed.

(** The records of two stacked blocks: those of the upper block, then
    those of the lower one. *)
Lemma records_stack cs1 cs2 n1 n2 :
  map fst cs1 = map fst cs2 ->
  Forall (fun c => List.length (snd c) = n1) cs1 ->
  records nan (mkDataFrame (n1 + n2) (stack cs1 cs2))
  = records nan (mkDataFrame n1 cs1) ++ records nan (mkDataFrame n2 cs2).
Proof.
  intros Hl H1. unfold records, row_at. cbn [nrows cols].
  rewrite seq_app, map_app. f_equal.
  - apply map_ext_in. intros i Hi. apply in_seq in Hi.
    apply (row_stack_upper cs1 cs2 n1 i Hl H1). lia.
  - replace (seq (0 + n1) n2) with (map (Nat.add n1) (seq 0 n2))
      by (rewrite <- seq_add; f_equal; lia).
    rewrite map_map. apply map_ext. intros i.
    apply (row_stack_lower cs1 cs2 n1 i Hl H1).
Qed.

(** Frames with one column index, stacked. *)
Lemma records_fold_stack (rest : list (DataFrame A)) cs n :
  Forall (fun c => List.length (snd c) = n) cs ->
  Forall wf rest ->
  Forall (fun f => columns f = map fst cs) rest ->
  records nan (mkDataFrame (n + total_rows rest)
                 (fold_left (fun acc f => stack acc (cols f)) rest cs))
  = records nan (mkDataFrame n cs) ++ flat_map (records nan) rest
  /\ map fst (fold_left (fun acc f => stack acc (cols f)) rest cs) = map fst cs.
Proof.
  revert cs n. induction rest as [|f rest IH]; intros cs n Hcs Hwf Hlab.
  - cbn. rewrite Nat.add_0_r, app_nil_r. now split.
  - inversion Hwf as [|? ? Hf Hwf']; subst.
    inversion Hlab as [|? ? Hlf Hlab']; subst.
    cbn [fold_left total_rows fold_right flat_map].
    assert (Hfst : map fst (stack cs (cols f)) = map fst cs)
      by (apply fst_stack; now rewrite <- Hlf).
    destruct (IH (stack cs (cols f)) (n + nrows f)) as [Hr Hl].
    + now apply stack_lengths.
    + assumption.
    + rewrite Hfst. exact Hlab'.
    + rewrite Nat.add_assoc. fold (total_rows rest). rewrite Hr, Hl. split.
      * rewrite records_stack by (try assumption; now rewrite <- Hlf).
        destruct f as [nf cf]. cbn [nrows cols]. now rewrite app_assoc.
      * exact Hfst.
Qed.

Lemma conform_same (labels : list string) (r : list (string * A)) :
  map fst r = labels -> conform nan labels r = r.
Proof.
  intros H. unfold conform.
  now rewrite (proj2 (labels_eqb_eq (map fst r) labels) H).
Qed.

Lemma fst_row_at f i : map fst (row_at nan f i) = columns f.
Proof. unfold row_at, columns. rewrite map_map. reflexivity. Qed.

Lemma conform_records_same (labels : list string) f :
  columns f = labels ->
  map (conform nan labels) (records nan f) = records nan f.
Proof.
  intros H. unfold records. rewrite map_map. apply map_ext. intros i.
  apply conform_same. now rewrite fst_row_at.
Qed.

Lemma length_column_or (l : string) f :
  wf f -> List.length (column_or nan l f) = nrows f.
Proof.
  unfold column_or, wf. intros Hwf.
  destruct (lookup l (cols f)) as [vs|] eqn:E.
  - apply lookup_In in E. rewrite Forall_forall in Hwf.
    exact (Hwf _ E).
  - apply repeat_length.
Qed.

Lemma length_flat_column_or (l : string) (fs : list (DataFrame A)) :
  Forall wf fs ->
  List.length (flat_map (column_or nan l) fs) = total_rows fs.
Proof.
  induction 1 as [|f fs Hf _ IH]; cbn; [reflexivity|].
  now rewrite length_app, length_column_or, IH.
Qed.

Lemma find_row_at (l : string) f i :
  match find (fun p => String.eqb (fst p) l) (row_at nan f i) with
  | Some p => snd p
  | None => nan
  end
  = match lookup l (cols f) with
    | Some vs => nth i vs nan
    | None => nan
    end.
Proof.
  unfold row_at, lookup. induction (cols f) as [|c cs IH]; [reflexivity|].
  cbn. destruct (String.eqb (fst c) l); [reflexivity | exact IH].
Qed.

(** A frame reindexed on [labels], record by record. *)
Lemma records_reindexed (labels : list string) f :
  NoDup (columns f) ->
  records nan (mkDataFrame (nrows f)
                 (map (fun l => (l, column_or nan l f)) labels))
  = map (conform nan labels) (records nan f).
Proof.
  intros Hnd. unfold records. cbn [nrows]. rewrite map_map.
  apply map_ext. intros i. unfold row_at at 1. cbn [cols].
  rewrite map_map. cbn [fst snd]. unfold conform.
  rewrite fst_row_at.
  destruct (labels_eqb (columns f) labels) eqn:E.
  - apply labels_eqb_eq in E. subst labels. unfold row_at, columns.
    rewrite map_map. apply map_ext_in. intros c Hc. f_equal.
    unfold column_or. now rewrite (lookup_unique (fst c) (cols f) c Hnd Hc eq_refl).
  - apply map_ext. intros l. f_equal. rewrite find_row_at.
    unfold column_or. destruct (lookup l (cols f)); [reflexivity|].
    apply nth_repeat.
Qed.

Lemma stack_map (labels : list string) (g h : string -> list A) :
  stack (map (fun l => (l, g l)) labels) (map (fun l => (l, h l)) labels)
  = map (fun l => (l, g l ++ h l)) labels.
Proof.
  unfold stack. induction labels as [|l labels IH]; cbn; [reflexivity|].
  f_equal. exact IH.
Qed.

(** Frames with distinct labels, reindexed on [labels] and stacked. *)
Lemma records_union (labels : list string) (fs : list (DataFrame A)) :
  Forall wf fs ->
  Forall (fun f => NoDup (columns f)) fs ->
  records nan (mkDataFrame (total_rows fs)
                 (map (fun l => (l, flat_map (column_or nan l) fs)) labels))
  = flat_map (fun f => map (conform nan labels) (records nan f)) fs.
Proof.
  intros Hwf. induction Hwf as [|f fs Hf Hfs IH]; intros Hnd.
  - reflexivity.
  - inversion Hnd as [|? ? Hndf Hnd']; subst.
    cbn [flat_map total_rows fold_right]. fold (total_rows fs).
    rewrite <- (stack_map labels (fun l => column_or nan l f)
                  (fun l => flat_map (column_or nan l) fs)).
    rewrite records_stack.
    + rewrite (IH Hnd'). f_equal. now apply records_reindexed.
    + now rewrite !map_map.
    + apply Forall_map. apply Forall_forall. intros l _. cbn.
      now apply length_column_or.
Qed.

Lemma conform_flat_same (labels : list string) (fs : list (DataFrame A)) :
  Forall (fun f => columns f = labels) fs ->
  flat_map (fun f => map (conform nan labels) (records nan f)) fs
  = flat_map (records nan) fs.
Proof.
  induction 1 as [|f fs Hf _ IH]; [reflexivity|].
  cbn [flat_map]. now rewrite IH, conform_records_same.
Qed.

(** [pd.concat] keeps the records of its frames, frame after frame and
    in each frame's own order, each on the columns of the result. *)
Lemma concat_records (frames : list (DataFrame A)) df :
  Forall wf frames ->
  concat nan frames = Ok df ->
  records nan df
  = flat_map (fun f => map (conform nan (columns df)) (records nan f)) frames.
Proof.
  intros Hwf. unfold concat. destruct frames as [|f0 rest]; [discriminate|].
  destruct (forallb (fun f => labels_eqb (columns f) (columns f0)) rest) eqn:Eq.
  - (* one column index *)
    intros [= <-].
    assert (Hlab : Forall (fun f => columns f = map fst (cols f0)) rest).
    { apply Forall_forall. intros f Hf. rewrite forallb_forall in Eq.
      apply labels_eqb_eq. exact (Eq f Hf). }
    inversion Hwf as [|? ? Hf0 Hrest]; subst.
    destruct (records_fold_stack rest (cols f0) (nrows f0) Hf0 Hrest Hlab)
      as [Hr Hl].
    cbn [total_rows fold_right]. fold (total_rows rest). rewrite Hr.
    unfold columns at 1. cbn [cols]. rewrite Hl. fold (columns f0).
    rewrite conform_flat_same by (constructor; [reflexivity | exact Hlab]).
    cbn [flat_map]. now destruct f0.
  - destruct (forallb (fun f => unique (columns f)) (f0 :: rest)) eqn:Eu;
      [|discriminate].
    intros [= <-]. unfold columns at 1. cbn [cols]. rewrite map_map.
    cbn [fst]. rewrite map_id.
    refine (records_union (union_labels (f0 :: rest)) (f0 :: rest) Hwf _).
    apply Forall_forall. intros f Hf. rewrite forallb_forall in Eu.
    apply unique_NoDup. exact (Eu f Hf).
Qed.

End Concat.

End ConcatFacts.

(** ** Cleaned frames, by label *)

Module CleanedFacts.
Import Frame Winners ExpectedWinners PyStr PyStrFacts ListFacts FrameFacts CleanFacts.

Section Cleaned.

Variable float64 : Type.
Variable parse_numeric : string -> option (num float64).
Variable str_of_float : float64 -> string.

Local Notation value := (value float64).
Local Notation cell := (cell float64).
Local Notation clean := (clean_data parse_numeric str_of_float).
Local Notation cleaned := (cleaned_column parse_numeric str_of_float).




Lemma renamed_labels (df : DataFrame value) :
  map fst (renamed df) = map normalize_name (columns df).
Proof. unfold renamed, columns. now rewrite !map_map. Qed.

End Cleaned.

End CleanedFacts.

(** ** Runs of the results pipeline *)

Module RunFacts.
Import Html Frame Winners ExpectedWinners PyStr PyStrFacts ListFacts FrameFacts.
Import SessionFacts.

Section Runs.

Variable float64 : Type.
Variable read_html : node -> result (list (DataFrame (value float64))).
Variable web : nat -> string -> result node.

Local Notation value := (value float64).
Local Notation event := (event float64).

Lemma quiet_filters (evs : list event) :
  forallb (@quiet float64) evs = true ->
  filter is_launch evs = [] /\ filter is_quit evs = []
  /\ filter is_to_csv evs = [].
Proof.
  induction evs as [|e evs IH]; [now repeat split|]. cbn [forallb].
  intros H. apply andb_true_iff in H as [He Hevs].
  destruct (IH Hevs) as (H1 & H2 & H3). cbn [filter]. rewrite H1, H2, H3.
  unfold quiet in He. now destruct e.
Qed.

(** Periods whose pages hold no table leave the gathered frames as
    they are. *)
Lemma loop_outcome_no_table (years : list Z) (n : nat)
      (acc : list (DataFrame value)) :
  (forall i, i < List.length years ->
             exists p, web (n + i) "https://" = Ok p
                       /\ find_class "table" "f1-table" p = None) ->
  loop_outcome read_html web n years acc = Ok acc.
Proof.
  revert n. induction years as [|y ys IH]; intros n H; [reflexivity|].
  cbn [loop_outcome]. unfold period_outcome.
  destruct (H 0) as [p [Hp Hnone]]; [cbn; lia|].
  rewrite Nat.add_0_r in Hp. rewrite Hp, Hnone. apply IH.
  intros i Hi. destruct (H (S i)) as [q Hq]; [cbn; lia|].
  rewrite Nat.add_succ_r in Hq. eauto.
Qed.

Lemma period_outcome_wf (n : nat) (year : Z) (df : DataFrame value) :
  (forall t frames, read_html t = Ok frames -> Forall wf frames) ->
  period_outcome read_html web n year = Ok (Some df) -> wf df.
Proof.
  intros Hwf. unfold period_outcome.
  destruct (web n "https://") as [p|]; [|discriminate].
  destruct (find_class "table" "f1-table" p) as [t|]; [|discriminate].
  destruct (read_html t) as [frames|] eqn:Er; [|discriminate].
  destruct (getitem frames 0) as [f|] eqn:Eg; [|discriminate].
  intros [= <-]. apply wf_setitem_scalar.
  unfold getitem in Eg. destruct (nth_error frames 0) eqn:En; [|discriminate].
  injection Eg as ->. apply nth_error_In in En.
  specialize (Hwf t frames Er). rewrite Forall_forall in Hwf. now apply Hwf.
Qed.

Lemma collected_wf (years : list Z) (n : nat) :
  (forall t frames, read_html t = Ok frames -> Forall wf frames) ->
  Forall wf (collected read_html web n years).
Proof.
  intros Hwf. revert n. induction years as [|y ys IH]; intros n; cbn.
  - constructor.
  - destruct (period_outcome read_html web n y) as [[df|]|] eqn:E;
      try apply IH.
    constructor; [|apply IH]. exact (period_outcome_wf n y df Hwf E).
Qed.

End Runs.

End RunFacts.

(* ================================================================== *)
(** * The claims of the specification *)

Module Claims.
Import Html Frame Expected ExpectedWinners.
Import PyStr PyStrFacts ListFacts HtmlFacts CircuitsFacts FrameFacts.
Import CleanFacts CleanedFacts StrptimeFacts SessionFacts RunFacts ConcatFacts.

(** ** Table Locator *)


(** The match is exact: surrounding whitespace is trimmed away, case is
    not folded. *)
Example find_circuits_table_trims_and_keeps_case :
  let padded := Elem "table" ["wikitable"] [tr [th "  Circuit "; th "Map"]] in
  let lower := Elem "table" ["wikitable"; "sortable"] [tr [th "circuit"]] in
  let plain := Elem "table" ["infobox"] [tr [th "Circuit"]] in
  Circuits.find_circuits_table (Sample.document [plain; lower; padded])
  = Some padded
  /\ Circuits.find_circuits_table (Sample.document [plain; lower]) = None.
Proof. split; reflexivity. Qed.

(** ** Record Extractor *)


(** ** Normalizer: field names *)

(** C6.  The field-name transform [c.lower().replace(' ', '_')] of both
    pipelines is idempotent on every list of names, and cleaning a
    circuits frame twice leaves the column names of the first pass. *)
Theorem normalize_name_idempotent :
  (forall names,
      map Circuits.normalize_name (map Circuits.normalize_name names)
      = map Circuits.normalize_name names)
  /\ (forall names,
         map Winners.normalize_name (map Winners.normalize_name names)
         = map Winners.normalize_name names)
  /\ (forall df,
         exists once twice,
           Circuits.clean_data df = Ok once
           /\ Circuits.clean_data once = Ok twice
           /\ columns twice = columns once).
Proof.
  assert (Hname : forall c,
             Circuits.normalize_name (Circuits.normalize_name c)
             = Circuits.normalize_name c).
  { intros c. unfold Circuits.normalize_name. rewrite !replace_lower.
    rewrite map_chars_compose. apply map_chars_ext, normalize_char_idem. }
  assert (Hnames : forall names,
             map Circuits.normalize_name (map Circuits.normalize_name names)
             = map Circuits.normalize_name names).
  { intros names. rewrite map_map. apply map_ext, Hname. }
  split; [exact Hnames | split; [exact Hnames|]].
  intros df. unfold Circuits.clean_data.
  rewrite set_columns_map. cbn [rbind]. eexists. eexists.
  split; [reflexivity|]. rewrite set_columns_map. cbn [rbind].
  split; [reflexivity|]. unfold columns, applymap. cbn [cols nrows].
  rewrite !map_map. cbn [fst]. apply map_ext. intros c. apply Hname.
Qed.

(** ** Normalizer: values *)

Section Cleaning.

Variable float64 : Type.
Variable parse_numeric : string -> option (Winners.num float64).
Variable str_of_float : float64 -> string.

Local Notation value := (Winners.value float64).
Local Notation cell := (Winners.cell float64).
Local Notation clean := (Winners.clean_data parse_numeric str_of_float).
Local Notation to_numeric := (Winners.to_numeric parse_numeric).
Local Notation combine_date := (combine_date str_of_float).
Local Notation VStr := (@Winners.VStr float64).
Local Notation VNum := (@Winners.VNum float64).
Local Notation VNaN := (@Winners.VNaN float64).
Local Notation NInt := (@Winners.NInt float64).
Local Notation Raw := (@Winners.Raw float64).
Local Notation NaT := (@Winners.NaT float64).
Local Notation Timestamp := (@Winners.Timestamp float64).




End Cleaning.





(** ** Multi-period runs *)

Section Running.

Variable float64 : Type.
Variable parse_numeric : string -> option (Winners.num float64).
Variable str_of_float : float64 -> string.
Variable read_html : node -> result (list (DataFrame (Winners.value float64))).
Variable web : nat -> string -> result node.

Local Notation value := (Winners.value float64).
Local Notation session := (Winners.session float64).
Local Notation scrape_all := (Winners.scrape_all read_html web).
Local Notation main := (Winners.main parse_numeric str_of_float read_html web).
Local Notation VNum := (@Winners.VNum float64).
Local Notation VNaN := (@Winners.VNaN float64).
Local Notation NInt := (@Winners.NInt float64).
Local Notation Launch := (@Winners.Launch float64).
Local Notation Quit := (@Winners.Quit float64).
Local Notation Print := (@Winners.Print float64).
Local Notation Get := (@Winners.Get float64).
Local Notation Sleep := (@Winners.Sleep float64).

Lemma concat_one (f : DataFrame value) : concat VNaN [f] = Ok f.
Proof.
  unfold concat. cbn. rewrite Nat.add_0_r. now destruct f.
Qed.

(** C4.  In a run over the periods 2020 and 2021 in which the page
    loaded for 2020 holds no [f1-table] and the page loaded for 2021
    holds one that [read_html] parses, the first period is reported and
    skipped, the driver is stopped, and the result is the frame of the
    2021 table with the field [year]: it has that table's rows, every
    record has the period 2021 and no other value under [year], and
    every other field is as parsed. *)
Theorem scrape_all_skips_period_without_table
        (st : session) (p2020 p2021 table : node)
        (frames : list (DataFrame value)) (df : DataFrame value) :
  web (Winners.loads st) "https://" = Ok p2020 ->
  find_class "table" "f1-table" p2020 = None ->
  web (S (Winners.loads st)) "https://" = Ok p2021 ->
  find_class "table" "f1-table" p2021 = Some table ->
  read_html table = Ok frames ->
  getitem frames 0 = Ok df ->
  let out := setitem_scalar "year" (VNum (NInt 2021)) df in
  fst (scrape_all [2020%Z; 2021%Z] st) = Ok out
  /\ Winners.log (snd (scrape_all [2020%Z; 2021%Z] st))
     = Winners.log st
       ++ [Launch;
           Print "Saving data for: 2020..."; Get "https://"; Sleep 5;
           Print "No data for: 2020.";
           Print "Saving data for: 2021..."; Get "https://"; Sleep 5;
           Quit]
  /\ nrows out = nrows df
  /\ (forall r, In r (records VNaN out) ->
                In ("year"%string, VNum (NInt 2021)) r
                /\ forall v, In ("year"%string, v) r -> v = VNum (NInt 2021))
  /\ (forall i,
         filter (fun p => negb (String.eqb (fst p) "year")) (row_at VNaN out i)
         = filter (fun p => negb (String.eqb (fst p) "year")) (row_at VNaN df i)).
Proof.
  intros H0 Hnone H1 Hsome Hread Hget out.
  pose proof (scrape_all_run float64 read_html web [2020%Z; 2021%Z] st) as Hrun.
  cbn zeta in Hrun. cbn [loop_outcome loop_events] in Hrun.
  unfold period_outcome, period_events in Hrun.
  rewrite H0, Hnone, H1, Hsome, Hread, Hget in Hrun. cbn [app] in Hrun.
  destruct Hrun as [Hres Hlog]. fold out in Hres.
  rewrite concat_one in Hres.
  split; [exact Hres|]. split; [exact Hlog|].
  split; [apply nrows_setitem|]. split.
  - (* the tag *)
    intros r Hr. unfold records in Hr. apply in_map_iff in Hr as [i [<- Hi]].
    apply in_seq in Hi. unfold out, setitem_scalar in *.
    rewrite nrows_setitem in Hi. unfold row_at, setitem.
    destruct (has_column "year" df) eqn:Hy; cbn [cols nrows].
    + split.
      * apply has_column_In in Hy. unfold columns in Hy.
        apply in_map_iff in Hy as [c [Hc Hin]].
        apply in_map_iff. exists (fst c, repeat (VNum (NInt 2021)) (nrows df)).
        split.
        -- cbn [fst snd]. rewrite Hc. f_equal. apply nth_repeat_lt. lia.
        -- apply in_map_iff. exists c. split; [|assumption].
           rewrite Hc. now rewrite String.eqb_refl.
      * intros v Hv. apply in_map_iff in Hv as [c [Hc Hin]].
        apply in_map_iff in Hin as [c0 [Hc0 _]].
        destruct (String.eqb (fst c0) "year") eqn:E.
        -- subst c. cbn [fst snd] in Hc. injection Hc as _ <-.
           apply nth_repeat_lt. lia.
        -- subst c. injection Hc as Hl _. apply String.eqb_neq in E.
           contradiction.
    + apply contains_false in Hy. split.
      * apply in_map_iff. exists ("year"%string, repeat (VNum (NInt 2021)) (nrows df)).
        split.
        -- cbn [fst snd]. f_equal. apply nth_repeat_lt. lia.
        -- apply in_or_app. right. now left.
      * intros v Hv. apply in_map_iff in Hv as [c [Hc Hin]].
        apply in_app_or in Hin as [Hin | [<- | []]].
        -- exfalso. apply Hy. injection Hc as Hl _. rewrite <- Hl.
           now apply in_map.
        -- cbn [fst snd] in Hc. injection Hc as <-. apply nth_repeat_lt. lia.
  - (* the other fields *)
    intros i. unfold out, setitem_scalar, row_at, setitem.
    destruct (has_column "year" df); cbn [cols].
    + rewrite map_map. induction (cols df) as [|c cs IH]; [reflexivity|].
      cbn [map filter]. rewrite IH.
      destruct (String.eqb (fst c) "year") eqn:E; cbn [fst]; now rewrite E.
    + rewrite map_app, filter_app. cbn. apply app_nil_r.
Qed.

(** C7, as amended.  [scrape_all] starts the driver once, before the
    period loop.  When every period's page load and table parsing
    return, it stops the driver once, after the loop, however many
    periods had a table.  When one of them raises, the exception leaves
    [scrape_all] and the driver is not stopped. *)
Theorem scrape_all_driver_lifetime (years : list Z) (st : session) :
  exists evs,
    forallb (@quiet float64) evs = true
    /\ acquisitions (Winners.log (snd (scrape_all years st)))
       = acquisitions (Winners.log st) + 1
    /\ ((all_periods_return read_html web (Winners.loads st) years
         /\ Winners.log (snd (scrape_all years st))
            = Winners.log st ++ [Launch] ++ evs ++ [Quit]
         /\ releases (Winners.log (snd (scrape_all years st)))
            = releases (Winners.log st) + 1)
        \/ (~ all_periods_return read_html web (Winners.loads st) years
            /\ (exists e, fst (scrape_all years st) = Raise e)
            /\ Winners.log (snd (scrape_all years st))
               = Winners.log st ++ [Launch] ++ evs
            /\ releases (Winners.log (snd (scrape_all years st)))
               = releases (Winners.log st))).
Proof.
  exists (loop_events read_html web (Winners.loads st) years).
  pose proof (loop_events_quiet float64 read_html web (Winners.loads st) years)
    as Hq.
  destruct (quiet_filters float64 _ Hq) as (Hl & Hk & _).
  pose proof (scrape_all_run float64 read_html web years st) as Hrun.
  cbn zeta in Hrun. split; [exact Hq|].
  destruct (loop_outcome read_html web (Winners.loads st) years []) as [fs|e]
    eqn:E; destruct Hrun as [Hres Hlog]; rewrite Hlog.
  - unfold acquisitions, releases. rewrite !filter_app, Hl, Hk. cbn.
    rewrite !length_app. cbn. split; [reflexivity|]. left.
    apply loop_outcome_collected in E as [_ Hall]. now repeat split.
  - unfold acquisitions, releases. rewrite !filter_app, Hl, Hk. cbn.
    rewrite !length_app. cbn. split; [reflexivity|]. right.
    apply loop_outcome_raises in E. repeat split; eauto; lia.
Qed.

(** C8.  The frame of [parse_circuits_table] holds the records of the
    qualifying data rows in the order of those rows.  In a run over
    several periods the frames are gathered in the order of the periods,
    and when [read_html] yields well-formed frames the records of the
    result are the records of those frames, frame after frame and in
    each frame's own order, laid out on the columns of the result. *)
Theorem records_keep_source_order :
  (forall t frames, read_html t = Ok frames -> Forall wf frames) ->
  (forall table,
      exists df,
        Circuits.parse_circuits_table table = Ok df
        /\ records EmptyString df
           = map circuit_record (filter qualifies (data_rows table)))
  /\ (forall years st frames,
         fst (Winners.scrape_years read_html web years [] st) = Ok frames ->
         frames = collected read_html web (Winners.loads st) years)
  /\ (forall n earlier later,
         collected read_html web n (earlier ++ later)
         = collected read_html web n earlier
           ++ collected read_html web (n + List.length earlier) later)
  /\ (forall years st df,
         fst (scrape_all years st) = Ok df ->
         records VNaN df
         = flat_map (fun f => map (conform VNaN (columns df)) (records VNaN f))
                    (collected read_html web (Winners.loads st) years)).
Proof.
  intros Hwf. split; [|split; [|split]].
  - intros table. eexists. split; [apply parse_circuits_table_frame|].
    apply circuit_frame_records.
  - intros years st frames H.
    destruct (scrape_years_run float64 read_html web years [] st) as [H1 _].
    rewrite H1 in H. now apply loop_outcome_collected in H as [-> _].
  - apply collected_app.
  - intros years st df H.
    pose proof (scrape_all_run float64 read_html web years st) as Hrun.
    cbn zeta in Hrun.
    destruct (loop_outcome read_html web (Winners.loads st) years []) as [fs|e]
      eqn:E; destruct Hrun as [Hres _]; rewrite Hres in H; [|discriminate].
    apply loop_outcome_collected in E as [-> _]. cbn [app] in *.
    destruct (collected read_html web (Winners.loads st) years) as [|f fs] eqn:Ec.
    + injection H as <-. reflexivity.
    + apply concat_records; [|exact H]. rewrite <- Ec. now apply collected_wf.
Qed.

(** C10.  When the page loaded for each period holds no [f1-table],
    [scrape_all] returns the empty frame: it does not call [pd.concat],
    which raises on an empty list.  [main], whose periods are
    [range(1950, 2025)], then prints "No data found." last and logs no
    [to_csv]. *)
Theorem scrape_all_without_tables (years : list Z) (st : session) :
  (forall i, i < List.length years ->
             exists p, web (Winners.loads st + i) "https://" = Ok p
                       /\ find_class "table" "f1-table" p = None) ->
  fst (scrape_all years st) = Ok empty_frame
  /\ concat VNaN [] = Raise ValueError
  /\ (years = Winners.range 1950 2025 ->
      fst (main st) = Ok tt
      /\ exists evs,
          Winners.log (snd (main st))
          = Winners.log st ++ evs ++ [Print "No data found."]
          /\ filter is_to_csv (Winners.log st ++ evs ++ [Print "No data found."])
             = filter is_to_csv (Winners.log st)).
Proof.
  intros Hnone.
  pose proof (scrape_all_run float64 read_html web years st) as Hrun.
  cbn zeta in Hrun.
  rewrite (loop_outcome_no_table float64 read_html web years _ [] Hnone) in Hrun.
  destruct Hrun as [Hres Hlog]. split; [exact Hres|]. split; [reflexivity|].
  intros ->.
  assert (Hmain : main st
                  = (Ok tt,
                     Winners.mkSession
                       (Winners.loads (snd (scrape_all (Winners.range 1950 2025) st)))
                       (Winners.page (snd (scrape_all (Winners.range 1950 2025) st)))
                       (Winners.log (snd (scrape_all (Winners.range 1950 2025) st))
                        ++ [Print "No data found."]))).
  { unfold Winners.main, Winners.bind at 1.
    destruct (Winners.scrape_all read_html web (Winners.range 1950 2025) st)
      as [r st'].
    cbn [fst snd] in Hres |- *. subst r. reflexivity. }
  rewrite Hmain. cbn [fst snd Winners.log]. split; [reflexivity|].
  exists ([Launch]
          ++ loop_events read_html web (Winners.loads st) (Winners.range 1950 2025)
          ++ [Quit]).
  rewrite Hlog. split; [now rewrite <- !app_assoc|].
  rewrite !filter_app.
  destruct (quiet_filters float64 _
              (loop_events_quiet float64 read_html web (Winners.loads st)
                 (Winners.range 1950 2025))) as (_ & _ & Hcsv).
  rewrite Hcsv. cbn. now rewrite app_nil_r.
Qed.

End Running.

Lemma sample_read_html_wf (t : node) (frames : list (DataFrame (Winners.value Sample.float64))) :
  Sample.read_html t = Ok frames -> Forall wf frames.
Proof.
  unfold Sample.read_html. destruct (find_all "tr" t) as [|head rows];
    [discriminate|].
  intros [= <-]. constructor; [|constructor].
  unfold wf. cbn [cols nrows]. apply Forall_map, Forall_forall.
  intros jl _. cbn [snd]. apply length_map.
Qed.

(** On the sample web 2020 has no table and 2021 has two races. *)
Lemma scrape_all_skips_period_without_table_witness :
  Sample.web_2020_2021 0 "https://" = Ok Sample.blank
  /\ find_class "table" "f1-table" Sample.blank = None
  /\ Sample.web_2020_2021 1 "https://" = Ok Sample.results_2021
  /\ find_class "table" "f1-table" Sample.results_2021 = Some Sample.table_2021
  /\ Sample.read_html Sample.table_2021 = Ok [Sample.frame_2021]
  /\ fst (Winners.scrape_all Sample.read_html Sample.web_2020_2021
            [2020%Z; 2021%Z] Sample.start)
     = Ok (setitem_scalar "year" (Winners.VNum (Winners.NInt 2021))
             Sample.frame_2021).
Proof.
  repeat (split; [reflexivity|]).
  exact (proj1 (scrape_all_skips_period_without_table
                  Sample.float64 Sample.read_html Sample.web_2020_2021
                  Sample.start Sample.blank Sample.results_2021
                  Sample.table_2021 [Sample.frame_2021] Sample.frame_2021
                  eq_refl eq_refl eq_refl eq_refl eq_refl eq_refl)).
Defined.

(** When a page load raises, the exception leaves [scrape_all] before
    [driver.quit()]: the driver that was started is never stopped. *)
Lemma scrape_all_leaves_driver_running :
  fst (Winners.scrape_all Sample.read_html Sample.web_down [2020%Z] Sample.start)
  = Raise WebDriverException
  /\ acquisitions
       (Winners.log (snd (Winners.scrape_all Sample.read_html Sample.web_down
                            [2020%Z] Sample.start))) = 1
  /\ releases
       (Winners.log (snd (Winners.scrape_all Sample.read_html Sample.web_down
                            [2020%Z] Sample.start))) = 0.
Proof. repeat split. Qed.

(** On the sample web the records of the run are those of the 2021
    frame, in the order of its rows. *)
Lemma records_keep_source_order_witness :
  (forall t frames, Sample.read_html t = Ok frames -> Forall wf frames)
  /\ forall df,
      fst (Winners.scrape_all Sample.read_html Sample.web_2020_2021
             [2020%Z; 2021%Z] Sample.start) = Ok df ->
      records Winners.VNaN df
      = flat_map (fun f => map (conform Winners.VNaN (columns df))
                               (records Winners.VNaN f))
          (collected Sample.read_html Sample.web_2020_2021 0 [2020%Z; 2021%Z]).
Proof.
  split; [exact sample_read_html_wf|].
  exact (proj2 (proj2 (proj2 (records_keep_source_order
                                Sample.float64 Sample.read_html
                                Sample.web_2020_2021 sample_read_html_wf)))
           [2020%Z; 2021%Z] Sample.start).
Defined.

(** On a web without any table [main] ends normally with an empty
    frame. *)
Lemma scrape_all_without_tables_witness :
  (forall i, i < List.length (Winners.range 1950 2025) ->
             exists p, Sample.web_blank (0 + i) "https://" = Ok p
                       /\ find_class "table" "f1-table" p = None)
  /\ fst (Winners.scrape_all Sample.read_html Sample.web_blank
            (Winners.range 1950 2025) Sample.start) = Ok empty_frame
  /\ fst (Winners.main Sample.parse_numeric Sample.str_of_float
            Sample.read_html Sample.web_blank Sample.start) = Ok tt.
Proof.
  assert (H : forall i, i < List.length (Winners.range 1950 2025) ->
                        exists p, Sample.web_blank (0 + i) "https://" = Ok p
                                  /\ find_class "table" "f1-table" p = None).
  { intros i _. exists Sample.blank. split; reflexivity. }
  split; [exact H|].
  destruct (scrape_all_without_tables Sample.float64 Sample.parse_numeric
              Sample.str_of_float Sample.read_html Sample.web_blank
              (Winners.range 1950 2025) Sample.start H) as (H1 & _ & H2).
  split; [exact H1 | exact (proj1 (H2 eq_refl))].
Defined.

End Claims.

(* ================================================================== *)
(** * Further properties of the two scripts *)

Module Extras.
Import Html Frame Expected ExpectedWinners Shape.
Import PyStr PyStrFacts ListFacts HtmlFacts CircuitsFacts FrameFacts.
Import CleanFacts CleanedFacts StrptimeFacts SessionFacts RunFacts ConcatFacts.

(** ** Stripped texts *)

Lemma lstrip_fixed (s : string) :
  match first_char s with
  | Some c => isspace c = false
  | None => True
  end -> lstrip s = s.
Proof. destruct s as [|c s]; cbn; [reflexivity|]. now intros ->. Qed.

Lemma rstrip_fixed (s : string) :
  match last_char s with
  | Some c => isspace c = false
  | None => True
  end -> rstrip s = s.
Proof.
  induction s as [|c s IH]; [reflexivity|]. cbn [last_char rstrip].
  destruct s as [|c' s'].
  - cbn. now intros ->.
  - intros H. rewrite (IH H). reflexivity.
Qed.

Lemma trimmed_strip_fixed (s : string) : trimmed s = true -> strip s = s.
Proof.
  unfold trimmed, strip. intros H.
  destruct (first_char s) as [a|] eqn:Ea.
  - destruct (last_char s) as [b|] eqn:Eb.
    + apply andb_true_iff in H as [Ha Hb]. apply negb_true_iff in Ha, Hb.
      rewrite lstrip_fixed by now rewrite Ea.
      apply rstrip_fixed. now rewrite Eb.
    + destruct s as [|c [|c' s']]; try discriminate.
      exfalso. clear -Eb. revert c' Eb.
      induction s' as [|x s' IH]; intros c' Eb; [discriminate|].
      exact (IH x Eb).
  - destruct s; [reflexivity | discriminate].
Qed.

Lemma strip_trimmed (s : string) : trimmed (strip s) = true.
Proof.
  unfold trimmed. pose proof (strip_ends s) as H.
  destruct (first_char (strip s)), (last_char (strip s)); try reflexivity.
  destruct H as [-> ->]. reflexivity.
Qed.

Lemma first_char_append (s t : string) :
  first_char (s ++ t) = match first_char s with
                        | Some c => Some c
                        | None => first_char t
                        end.
Proof. now destruct s. Qed.

Lemma append_empty_r (s : string) : (s ++ EmptyString)%string = s.
Proof. induction s as [|c s IH]; cbn; [reflexivity | now rewrite IH]. Qed.

Lemma last_char_append (s t : string) :
  last_char (s ++ t) = match last_char t with
                       | Some c => Some c
                       | None => last_char s
                       end.
Proof.
  destruct t as [|x t].
  - now rewrite append_empty_r.
  - assert (Hsome : exists b, last_char (String x t) = Some b).
    { clear. revert x. induction t as [|y t IH]; intros x; [now exists x|].
      exact (IH y). }
    destruct Hsome as [b Hb]. rewrite Hb.
    induction s as [|c s IH]; [exact Hb|].
    cbn [String.append last_char].
    destruct (s ++ String x t)%string eqn:E; [|exact IH].
    destruct s; discriminate.
Qed.

Lemma nonempty_chars (s : string) :
  nonempty s = true ->
  exists a b, first_char s = Some a /\ last_char s = Some b.
Proof.
  destruct s as [|c s]; [discriminate|]. intros _. exists c.
  revert c. induction s as [|x s IH]; intros c; [now exists c|].
  destruct (IH x) as [b [_ Hb]]. exists b. split; [reflexivity | exact Hb].
Qed.

Lemma join_trimmed (pieces : list string) :
  Forall (fun s => trimmed s = true /\ nonempty s = true) pieces ->
  trimmed (join pieces) = true.
Proof.
  induction 1 as [|s pieces [Ht Hn] _ IH]; [reflexivity|].
  cbn [join fold_right]. fold (join pieces).
  destruct (nonempty_chars s Hn) as (a & b & Ha & Hb).
  unfold trimmed in *. rewrite first_char_append, last_char_append, Ha, Hb in *.
  apply andb_true_iff in Ht as [Hsa Hsb].
  destruct (last_char (join pieces)) as [z|] eqn:Ez.
  - destruct (first_char (join pieces)) as [y|] eqn:Ey.
    + apply andb_true_iff in IH as [_ Hz]. now rewrite Hsa, Hz.
    + destruct (join pieces); discriminate.
  - now rewrite Hsa, Hsb.
Qed.

(** The text of a node as [get_text(strip=True)] gives it has no
    whitespace at either end. *)
Lemma get_text_strip_trimmed (n : node) : trimmed (get_text_strip n) = true.
Proof.
  unfold get_text_strip. apply join_trimmed. apply Forall_forall.
  intros s Hs. apply filter_In in Hs as [Hin Hn]. split; [|exact Hn].
  apply in_map_iff in Hin as [t [<- _]]. apply strip_trimmed.
Qed.

Lemma strip_get_text_strip (n : node) :
  strip (get_text_strip n) = get_text_strip n.
Proof. apply trimmed_strip_fixed, get_text_strip_trimmed. Qed.

Lemma strip_idempotent (s : string) : strip (strip s) = strip s.
Proof. apply trimmed_strip_fixed, strip_trimmed. Qed.

(** ** The circuits pipeline *)


Lemma parsed_frame_is_clean (table : node) :
  exists df,
    Circuits.parse_circuits_table table = Ok df
    /\ Circuits.clean_data df = Ok df.
Proof.
  eexists. split; [apply parse_circuits_table_frame|].
  unfold Circuits.clean_data. rewrite set_columns_map. cbn [rbind].
  unfold applymap. cbn [nrows cols map fst snd].
  rewrite !map_map.
  assert (H : forall i rows,
             map (fun row => strip (cell_text i row)) rows
             = map (cell_text i) rows).
  { intros i rows. apply map_ext. intros row. apply strip_get_text_strip. }
  rewrite !H. reflexivity.
Qed.

(** X2.  The cleaning step of the circuits script changes nothing in a
    frame that [parse_circuits_table] built: the six names are already
    normalized and the values already stripped. *)
Theorem clean_data_keeps_parsed_frame (table : node) :
  exists df,
    Circuits.parse_circuits_table table = Ok df
    /\ Circuits.clean_data df = Ok df
    /\ columns df = map Circuits.normalize_name (columns df).
Proof.
  destruct (parsed_frame_is_clean table) as [df [Hp Hc]].
  exists df. split; [exact Hp|]. split; [exact Hc|].
  rewrite parse_circuits_table_frame in Hp. injection Hp as <-. reflexivity.
Qed.

(** X3.  Cleaning a circuits frame is idempotent as a whole: a second
    pass returns the frame of the first, names and values. *)
Theorem circuits_clean_data_idempotent (df : DataFrame string) :
  exists once,
    Circuits.clean_data df = Ok once
    /\ Circuits.clean_data once = Ok once
    /\ nrows once = nrows df
    /\ List.length (cols once) = List.length (cols df).
Proof.
  unfold Circuits.clean_data. rewrite set_columns_map. cbn [rbind].
  eexists. split; [reflexivity|]. rewrite set_columns_map. cbn [rbind].
  unfold applymap, columns. cbn [nrows cols]. rewrite !map_map. cbn [fst snd].
  split; [|split; [reflexivity | now rewrite length_map]].
  do 2 f_equal. apply map_ext. intros c. f_equal.
  - unfold Circuits.normalize_name. rewrite !replace_lower.
    rewrite map_chars_compose. apply map_chars_ext, normalize_char_idem.
  - rewrite map_map. apply map_ext, strip_idempotent.
Qed.


Section CircuitsScript.

Variable http : string -> CircuitsRun.request_exn + CircuitsRun.response.

Local Notation fetch_page := (CircuitsRun.fetch_page http).
Local Notation main := (CircuitsRun.main http).

Lemma circuits_main_unfold (lg : list CircuitsRun.event) :
  main lg
  = match fetch_page "https://" with
    | CircuitsRun.Failed f => (CircuitsRun.Failed f, lg)
    | CircuitsRun.Done soup =>
        match Circuits.find_circuits_table soup with
        | None =>
            (CircuitsRun.Done tt, lg ++ [CircuitsRun.Print "No table found."])
        | Some table =>
            match Circuits.parse_circuits_table table with
            | Raise e => (CircuitsRun.Failed (CircuitsRun.Python e), lg)
            | Ok df =>
                match Circuits.clean_data df with
                | Raise e => (CircuitsRun.Failed (CircuitsRun.Python e), lg)
                | Ok df' =>
                    (CircuitsRun.Done tt,
                     lg ++ [CircuitsRun.ToCsv ".csv" df';
                            CircuitsRun.Print "SAVED: '.csv'";
                            CircuitsRun.PrintFrame (CircuitsRun.head 5 df')])
                end
            end
        end
    end.
Proof.
  unfold CircuitsRun.main, CircuitsRun.bind, CircuitsRun.python,
    CircuitsRun.lift, CircuitsRun.emit.
  destruct (fetch_page "https://") as [soup|f]; [|reflexivity].
  destruct (Circuits.find_circuits_table soup) as [table|]; [|reflexivity].
  destruct (Circuits.parse_circuits_table table) as [df|e]; [|reflexivity].
  destruct (Circuits.clean_data df) as [df'|e]; [|reflexivity].
  now rewrite <- !app_assoc.
Qed.

(** X5.  The circuits script stops exactly when [requests.get] raises
    or the response has a status from 400 to 599; it stops with that
    exception of [requests] and has then shown and written nothing.
    Locating, parsing and cleaning never stop it. *)
Theorem circuits_main_stops_on_fetch_only (lg : list CircuitsRun.event) :
  (fetch_page "https://"
   = match http "https://" with
     | inl e => CircuitsRun.Failed (CircuitsRun.Requests e)
     | inr r =>
         if (400 <=? CircuitsRun.status_code r)
            && (CircuitsRun.status_code r <? 600)
         then CircuitsRun.Failed
                (CircuitsRun.Requests
                   (CircuitsRun.HTTPError (CircuitsRun.status_code r)))
         else CircuitsRun.Done (CircuitsRun.content r)
     end)
  /\ match fetch_page "https://" with
     | CircuitsRun.Failed f =>
         main lg = (CircuitsRun.Failed f, lg)
         /\ exists e, f = CircuitsRun.Requests e
     | CircuitsRun.Done _ => fst (main lg) = CircuitsRun.Done tt
     end.
Proof.
  split.
  - unfold CircuitsRun.fetch_page, CircuitsRun.raise_for_status.
    destruct (http "https://") as [e|r]; [reflexivity|].
    now destruct ((400 <=? CircuitsRun.status_code r)
                  && (CircuitsRun.status_code r <? 600)).
  - rewrite circuits_main_unfold.
    destruct (fetch_page "https://") as [soup|f] eqn:E.
    + destruct (Circuits.find_circuits_table soup) as [table|]; [|reflexivity].
      destruct (parsed_frame_is_clean table) as [df [-> ->]].
      reflexivity.
    + split; [reflexivity|].
      unfold CircuitsRun.fetch_page, CircuitsRun.raise_for_status in E.
      destruct (http "https://") as [e|r].
      * injection E as <-. eauto.
      * destruct ((400 <=? CircuitsRun.status_code r)
                  && (CircuitsRun.status_code r <? 600)); [|discriminate].
        injection E as <-. eauto.
Qed.

(** X6.  On a page that was fetched, the circuits script either finds
    no circuits table and only prints "No table found.", or writes one
    file, '.csv', and then prints twice.  The frame it writes is the one
    [parse_circuits_table] built, with one record per qualifying row of
    the table found, and it is written also when no row qualifies. *)
Theorem circuits_main_trace (lg : list CircuitsRun.event) :
  match fetch_page "https://" with
  | CircuitsRun.Failed f => snd (main lg) = lg
  | CircuitsRun.Done soup =>
      match Circuits.find_circuits_table soup with
      | None => snd (main lg) = lg ++ [CircuitsRun.Print "No table found."]
      | Some table =>
          exists df,
            Circuits.parse_circuits_table table = Ok df
            /\ snd (main lg)
               = lg ++ [CircuitsRun.ToCsv ".csv" df;
                        CircuitsRun.Print "SAVED: '.csv'";
                        CircuitsRun.PrintFrame (CircuitsRun.head 5 df)]
            /\ records EmptyString df
               = map circuit_record (filter qualifies (data_rows table))
            /\ nrows df = List.length (filter qualifies (data_rows table))
      end
  end.
Proof.
  rewrite circuits_main_unfold.
  destruct (fetch_page "https://") as [soup|f]; [|reflexivity].
  destruct (Circuits.find_circuits_table soup) as [table|]; [|reflexivity].
  destruct (parsed_frame_is_clean table) as [df [Hp Hc]].
  exists df. rewrite Hp, Hc. split; [reflexivity|]. split; [reflexivity|].
  rewrite parse_circuits_table_frame in Hp. injection Hp as <-.
  split; [apply circuit_frame_records | reflexivity].
Qed.

End CircuitsScript.

(** ** The results pipeline: cleaning *)

Section MoreCleaning.

Variable float64 : Type.
Variable parse_numeric : string -> option (Winners.num float64).
Variable str_of_float : float64 -> string.

Local Notation value := (Winners.value float64).
Local Notation cell := (Winners.cell float64).
Local Notation clean := (Winners.clean_data parse_numeric str_of_float).
Local Notation Raw := (@Winners.Raw float64).
Local Notation NaT := (@Winners.NaT float64).
Local Notation Timestamp := (@Winners.Timestamp float64).

(** X7.  When two columns of a frame have names that normalize to
    [laps], [clean_data] raises TypeError: [df['laps']] is then a frame,
    which [pd.to_numeric] refuses. *)
Theorem clean_data_two_laps_columns (df : DataFrame value) :
  single "laps" (renamed df) = false -> clean df = Raise TypeError.
Proof.
  intros Hs. unfold Winners.clean_data.
  rewrite set_columns_map. fold (renamed df). cbn [rbind].
  now rewrite (laps_step_raises _ parse_numeric (renamed df) (nrows df) Hs).
Qed.

Lemma cleaned_column_length (year : option (list value))
      (c : string * list value) (n : nat) :
  List.length (snd c) = n ->
  match year with Some ys => List.length ys = n | None => True end ->
  List.length (snd (cleaned_column parse_numeric str_of_float year c)) = n.
Proof.
  intros Hc Hy. unfold cleaned_column.
  destruct (String.eqb (fst c) "laps"); cbn [snd]; [now rewrite length_map|].
  destruct (String.eqb (fst c) "date"); cbn [snd]; [|now rewrite length_map].
  destruct year as [ys|]; cbn [snd]; [|now rewrite length_map].
  rewrite length_map, length_combine. lia.
Qed.

(** X8.  Whenever [clean_data] returns, the output has the rows of the
    input and its columns under their normalized names and in their
    order, less the column called [full_date] when the frame has both a
    date and a year column; and a frame in which every column has one
    entry per row stays so. *)
Theorem clean_data_shape (df : DataFrame value) (out : DataFrame cell) :
  clean df = Ok out ->
  let names := map Winners.normalize_name (columns df) in
  nrows out = nrows df
  /\ columns out
     = (if contains "date" names && contains "year" names
        then filter (fun l => negb (String.eqb l "full_date")) names
        else names)
  /\ (wf df -> wf out).
Proof.
  intros Hout names.
  destruct (readable (renamed df)) eqn:Hread.
  2:{ destruct (clean_data_raises _ parse_numeric str_of_float df Hread) as [e He].
      congruence. }
  rewrite (clean_data_frame _ parse_numeric str_of_float df Hread) in Hout.
  injection Hout as <-.
  set (X := map (cleaned_column parse_numeric str_of_float
                   (lookup "year" (renamed df))) (renamed df)).
  assert (HX : map fst X = names).
  { unfold X. rewrite map_map.
    rewrite (map_ext _ fst (fst_cleaned_column _ parse_numeric str_of_float _)).
    apply renamed_labels. }
  assert (Hfilter : map fst (filter (@keeps float64) X)
                    = filter (fun l => negb (String.eqb l "full_date")) names).
  { rewrite <- HX. clear. induction X as [|c X IH]; [reflexivity|].
    cbn [filter map]. unfold keeps at 1.
    destruct (negb (String.eqb (fst c) "full_date")); cbn [map]; now rewrite IH. }
  unfold has_column.
  change (columns (mkDataFrame (nrows df) (renamed df)))
    with (map fst (renamed df)).
  rewrite (renamed_labels _ df). fold names. cbn [nrows].
  split; [reflexivity|]. split.
  - unfold columns at 1. cbn [cols].
    now destruct (contains "date" names && contains "year" names).
  - intros Hwf. unfold wf. cbn [cols nrows].
    assert (HwfX : Forall (fun c : string * list cell =>
                             List.length (snd c) = nrows df) X).
    { unfold X. apply Forall_map, Forall_forall. intros c Hc.
      apply cleaned_column_length.
      - unfold renamed in Hc. apply in_map_iff in Hc as [c0 [<- Hc0]].
        cbn [snd]. unfold wf in Hwf. rewrite Forall_forall in Hwf.
        now apply Hwf.
      - destruct (lookup "year" (renamed df)) as [ys|] eqn:Ey; [|exact I].
        apply lookup_In in Ey. unfold renamed in Ey.
        apply in_map_iff in Ey as [c0 [Heq Hc0]]. injection Heq as _ <-.
        unfold wf in Hwf. rewrite Forall_forall in Hwf. now apply Hwf. }
    destruct (contains "date" names && contains "year" names); [|exact HwfX].
    rewrite Forall_forall in *. intros c Hc. apply HwfX.
    now apply filter_In in Hc.
Qed.





End MoreCleaning.

(** Two columns, "Laps" and "laps", make the sample frame unreadable. *)
Lemma clean_data_two_laps_columns_witness :
  single "laps" (renamed MoreSamples.races_two_laps) = false
  /\ Winners.clean_data Sample.parse_numeric Sample.str_of_float
       MoreSamples.races_two_laps = Raise TypeError.
Proof.
  split; [reflexivity|].
  exact (clean_data_two_laps_columns Sample.float64 Sample.parse_numeric
           Sample.str_of_float MoreSamples.races_two_laps eq_refl).
Defined.

(** The sample frame that has a [full_date] column comes out with its
    row and without that column. *)
Lemma clean_data_shape_witness :
  exists out,
    Winners.clean_data Sample.parse_numeric Sample.str_of_float
      Sample.races_with_full_date = Ok out
    /\ nrows out = 1
    /\ columns out = ["date"; "year"].
Proof.
  eexists.
  assert (Hout : Winners.clean_data Sample.parse_numeric Sample.str_of_float
                   Sample.races_with_full_date = Ok _) by reflexivity.
  split; [exact Hout|].
  destruct (clean_data_shape Sample.float64 Sample.parse_numeric
              Sample.str_of_float Sample.races_with_full_date _ Hout)
    as (Hn & Hc & _).
  split; [exact Hn | exact Hc].
Defined.


(** ** The results pipeline: runs *)

Lemma fold_union_In (l : string) (xs acc : list string) :
  In l (fold_left
          (fun acc x => if contains x acc then acc else acc ++ [x]) xs acc)
  <-> In l acc \/ In l xs.
Proof.
  revert acc. induction xs as [|x xs IH]; intros acc; cbn [fold_left In].
  - tauto.
  - rewrite IH. destruct (contains x acc) eqn:E.
    + apply contains_In in E. split; [tauto|].
      intros [H | [<- | H]]; tauto.
    + rewrite in_app_iff. cbn [In]. tauto.
Qed.


Section MoreRunning.

Variable float64 : Type.
Variable parse_numeric : string -> option (Winners.num float64).
Variable str_of_float : float64 -> string.
Variable read_html : node -> result (list (DataFrame (Winners.value float64))).
Variable web : nat -> string -> result node.

Local Notation value := (Winners.value float64).
Local Notation cell := (Winners.cell float64).
Local Notation session := (Winners.session float64).
Local Notation event := (Winners.event float64).
Local Notation scrape_year := (Winners.scrape_year read_html web).
Local Notation scrape_years := (Winners.scrape_years read_html web).
Local Notation scrape_all := (Winners.scrape_all read_html web).
Local Notation main := (Winners.main parse_numeric str_of_float read_html web).
Local Notation outcome := (period_outcome read_html web).
Local Notation VNum := (@Winners.VNum float64).
Local Notation VNaN := (@Winners.VNaN float64).
Local Notation NInt := (@Winners.NInt float64).
Local Notation Launch := (@Winners.Launch float64).
Local Notation Quit := (@Winners.Quit float64).
Local Notation Print := (@Winners.Print float64).
Local Notation ToCsv := (@Winners.ToCsv float64).
Local Notation gets := (@Trace.gets float64).
Local Notation sleeps := (@Trace.sleeps float64).
Local Notation pevents := (@period_events float64 web).

(** X11.  Whatever a page's table holds under [year], [scrape_year]
    returns it with the period there: the frame has a column [year] and
    every column so called holds the period in each row.  It returns
    [None] only for a page without [f1-table], and it always leaves the
    session one page load further. *)
Theorem scrape_year_tags_period (year : Z) (st : session) :
  Winners.loads (snd (scrape_year year st)) = S (Winners.loads st)
  /\ match fst (scrape_year year st) with
     | Ok (Some df) =>
         has_column "year" df = true
         /\ forall c, In c (cols df) -> fst c = "year"%string ->
                      snd c = repeat (VNum (NInt year)) (nrows df)
     | Ok None =>
         exists p, web (Winners.loads st) "https://" = Ok p
                   /\ find_class "table" "f1-table" p = None
     | Raise _ => True
     end.
Proof.
  rewrite scrape_year_run. cbn [fst snd Winners.loads]. split; [reflexivity|].
  unfold period_outcome.
  destruct (web (Winners.loads st) "https://") as [p|]; [|exact I].
  destruct (find_class "table" "f1-table" p) as [t|] eqn:Ef; [|eauto].
  destruct (read_html t) as [frames|]; [|exact I].
  destruct (getitem frames 0) as [df|]; [|exact I].
  unfold setitem_scalar, setitem.
  destruct (has_column "year" df) eqn:Hy.
  - split.
    + unfold has_column, columns in *. cbn [cols]. rewrite map_map.
      erewrite map_ext; [exact Hy|]. intros c.
      now destruct (String.eqb (fst c) "year").
    + cbn [cols nrows]. intros c Hc Hl. apply in_map_iff in Hc as [c0 [<- _]].
      destruct (String.eqb (fst c0) "year") eqn:E; [reflexivity|].
      apply String.eqb_neq in E. contradiction.
  - split.
    + apply has_column_In. unfold columns. cbn [cols]. rewrite map_app.
      apply in_or_app. right. now left.
    + cbn [cols nrows]. intros c Hc Hl.
      apply in_app_or in Hc as [Hc | [<- | []]]; [|reflexivity].
      exfalso. apply contains_false in Hy. apply Hy. rewrite <- Hl.
      now apply in_map.
Qed.

Lemma scrape_years_loads (years : list Z) (acc : list (DataFrame value))
      (st : session) :
  all_periods_return read_html web (Winners.loads st) years ->
  Winners.loads (snd (scrape_years years acc st))
  = Winners.loads st + List.length years.
Proof.
  revert acc st. induction years as [|y ys IH]; intros acc st Hall.
  - cbn. lia.
  - cbn [Winners.scrape_years]. unfold Winners.bind.
    rewrite scrape_year_run. destruct Hall as [[o Ho] Hall]. rewrite Ho.
    destruct o as [df|]; rewrite IH by exact Hall; cbn; lia.
Qed.

Lemma period_events_counts (n : nat) (year : Z)
      (o : option (DataFrame value)) :
  outcome n year = Ok o ->
  gets (pevents n year) = 1
  /\ sleeps (pevents n year) = 1.
Proof.
  unfold period_outcome, period_events.
  destruct (web n "https://") as [p|]; [|discriminate]. intros _.
  now destruct (find_class "table" "f1-table" p).
Qed.

Lemma loop_events_counts (years : list Z) (n : nat) :
  all_periods_return read_html web n years ->
  gets (loop_events read_html web n years) = List.length years
  /\ sleeps (loop_events read_html web n years) = List.length years.
Proof.
  revert n. induction years as [|y ys IH]; intros n Hall; [now split|].
  destruct Hall as [[o Ho] Hall]. cbn [loop_events]. rewrite Ho.
  destruct (period_events_counts n y o Ho) as [Hg Hs].
  destruct (IH _ Hall) as [Hg' Hs'].
  unfold Trace.gets, Trace.sleeps in *.
  rewrite !filter_app, !length_app, Hg, Hs, Hg', Hs'. now split.
Qed.

(** X12.  In a run in which every period returns, [scrape_all] loads
    one page per period and pauses once after each load, whether or not
    the page has a table. *)
Theorem scrape_all_one_load_per_period (years : list Z) (st : session) :
  all_periods_return read_html web (Winners.loads st) years ->
  Winners.loads (snd (scrape_all years st))
  = Winners.loads st + List.length years
  /\ gets (Winners.log (snd (scrape_all years st)))
     = gets (Winners.log st) + List.length years
  /\ sleeps (Winners.log (snd (scrape_all years st)))
     = sleeps (Winners.log st) + List.length years.
Proof.
  intros Hall. split.
  - rewrite scrape_all_unfold.
    pose proof (scrape_years_loads years []
                  (Winners.mkSession (Winners.loads st) (Winners.page st)
                     (Winners.log st ++ [Launch])) Hall) as Hl.
    pose proof (scrape_years_run float64 read_html web years []
                  (Winners.mkSession (Winners.loads st) (Winners.page st)
                     (Winners.log st ++ [Launch]))) as [Hr _].
    cbn [Winners.loads] in Hl, Hr.
    rewrite (loop_outcome_returns float64 read_html web _ _ [] Hall) in Hr.
    destruct (scrape_years years [] _) as [r s']. cbn [fst snd] in *. subst r.
    exact Hl.
  - pose proof (scrape_all_run float64 read_html web years st) as Hrun.
    cbn zeta in Hrun.
    rewrite (loop_outcome_returns float64 read_html web _ _ [] Hall) in Hrun.
    destruct Hrun as [_ ->].
    destruct (loop_events_counts years _ Hall) as [Hg Hs].
    unfold Trace.gets, Trace.sleeps in *.
    rewrite !filter_app, !length_app, Hg, Hs. cbn. lia.
Qed.

Lemma loop_outcome_stops (before after : list Z) (y : Z) (e : exn) (n : nat)
      (acc : list (DataFrame value)) :
  all_periods_return read_html web n before ->
  outcome (n + List.length before) y = Raise e ->
  loop_outcome read_html web n (before ++ y :: after) acc = Raise e
  /\ loop_events read_html web n (before ++ y :: after)
     = loop_events read_html web n before
       ++ pevents (n + List.length before) y.
Proof.
  revert n acc. induction before as [|b before IH]; intros n acc Hall Hy.
  - cbn [app List.length loop_outcome loop_events] in *.
    rewrite Nat.add_0_r in *. rewrite Hy. now rewrite app_nil_r.
  - destruct Hall as [[o Ho] Hall].
    replace (n + List.length (b :: before)) with (S n + List.length before)
      in * by (cbn [List.length]; lia).
    cbn [app loop_outcome loop_events]. rewrite Ho.
    destruct o as [df|].
    + destruct (IH (S n) (acc ++ [df]) Hall Hy) as [H1 H2].
      now rewrite H1, H2, app_assoc.
    + destruct (IH (S n) acc Hall Hy) as [H1 H2].
      now rewrite H1, H2, app_assoc.
Qed.

(** X13.  [scrape_all] stops at the first period that raises: it ends
    with that exception, the periods after it are neither announced nor
    loaded, what the earlier periods gathered is lost, and the driver is
    left running. *)
Theorem scrape_all_stops_at_first_failure
        (before after : list Z) (y : Z) (e : exn) (st : session) :
  all_periods_return read_html web (Winners.loads st) before ->
  outcome (Winners.loads st + List.length before) y = Raise e ->
  fst (scrape_all (before ++ y :: after) st) = Raise e
  /\ Winners.log (snd (scrape_all (before ++ y :: after) st))
     = Winners.log st ++ [Launch]
       ++ loop_events read_html web (Winners.loads st) before
       ++ pevents (Winners.loads st + List.length before) y
  /\ gets (Winners.log (snd (scrape_all (before ++ y :: after) st)))
     = gets (Winners.log st) + List.length before + 1
  /\ releases (Winners.log (snd (scrape_all (before ++ y :: after) st)))
     = releases (Winners.log st).
Proof.
  intros Hall Hy.
  destruct (loop_outcome_stops before after y e _ [] Hall Hy) as [Ho He].
  pose proof (scrape_all_run float64 read_html web (before ++ y :: after) st)
    as Hrun.
  cbn zeta in Hrun. rewrite Ho, He in Hrun. destruct Hrun as [Hres Hlog].
  split; [exact Hres|]. split; [exact Hlog|]. rewrite Hlog.
  destruct (loop_events_counts before _ Hall) as [Hg _].
  pose proof (loop_events_quiet float64 read_html web (Winners.loads st) before)
    as Hq.
  destruct (quiet_filters float64 _ Hq) as (_ & Hk & _).
  pose proof (period_events_quiet float64 web
                (Winners.loads st + List.length before) y) as Hq'.
  destruct (quiet_filters float64 _ Hq') as (_ & Hk' & _).
  assert (Hg1 : gets (pevents
                              (Winners.loads st + List.length before) y) = 1).
  { unfold period_events, period_outcome in *.
    destruct (web (Winners.loads st + List.length before) "https://") as [p|];
      [|reflexivity].
    now destruct (find_class "table" "f1-table" p). }
  unfold Trace.gets, releases in *.
  rewrite !filter_app, !length_app, Hg, Hg1, Hk, Hk'. cbn. split; lia.
Qed.

Lemma fold_stack_lengths (rest : list (DataFrame value))
      (cs : list (string * list value)) (n : nat) :
  Forall (fun c => List.length (snd c) = n) cs ->
  Forall wf rest ->
  Forall (fun c => List.length (snd c) = n + total_rows rest)
         (fold_left (fun acc f => stack acc (cols f)) rest cs).
Proof.
  revert cs n. induction rest as [|f rest IH]; intros cs n Hcs Hwf.
  - cbn. now rewrite Nat.add_0_r.
  - inversion Hwf as [|? ? Hf Hwf']; subst.
    cbn [fold_left total_rows fold_right]. fold (total_rows rest).
    rewrite Nat.add_assoc. apply IH; [|assumption].
    now apply stack_lengths.
Qed.

Lemma concat_wf (frames : list (DataFrame value)) (df : DataFrame value) :
  Forall wf frames ->
  concat VNaN frames = Ok df ->
  wf df /\ nrows df = total_rows frames.
Proof.
  intros Hwf. unfold concat. destruct frames as [|f0 rest]; [discriminate|].
  inversion Hwf as [|? ? Hf0 Hrest]; subst.
  destruct (forallb _ rest).
  - intros [= <-]. split; [|reflexivity]. unfold wf. cbn [cols nrows].
    cbn [total_rows fold_right]. fold (total_rows rest).
    now apply fold_stack_lengths.
  - destruct (forallb _ (f0 :: rest)); [|discriminate].
    intros [= <-]. split; [|reflexivity]. unfold wf. cbn [cols nrows].
    apply Forall_map, Forall_forall. intros l _. cbn [snd].
    exact (length_flat_column_or VNaN l (f0 :: rest) Hwf).
Qed.

(** X14.  When [read_html] yields frames with one entry per row in
    every column, so is the frame that [scrape_all] returns, and it has
    as many rows, and as many records, as the tables of all periods
    together: no row is lost or repeated. *)
Theorem scrape_all_row_count (years : list Z) (st : session)
        (df : DataFrame value) :
  (forall t frames, read_html t = Ok frames -> Forall wf frames) ->
  fst (scrape_all years st) = Ok df ->
  wf df
  /\ nrows df = total_rows (collected read_html web (Winners.loads st) years)
  /\ List.length (records VNaN df)
     = total_rows (collected read_html web (Winners.loads st) years).
Proof.
  intros Hwf H.
  pose proof (scrape_all_run float64 read_html web years st) as Hrun.
  cbn zeta in Hrun.
  destruct (loop_outcome read_html web (Winners.loads st) years []) as [fs|e]
    eqn:E; destruct Hrun as [Hres _]; rewrite Hres in H; [|discriminate].
  apply loop_outcome_collected in E as [-> _]. cbn [app] in *.
  assert (Hgoal : wf df /\ nrows df
                  = total_rows (collected read_html web (Winners.loads st) years)).
  { destruct (collected read_html web (Winners.loads st) years) as [|f fs] eqn:Ec.
    - injection H as <-. split; [constructor | reflexivity].
    - apply concat_wf; [|exact H]. rewrite <- Ec.
      now apply collected_wf. }
  destruct Hgoal as [H1 H2]. repeat split; try assumption.
  unfold records. now rewrite length_map, length_seq.
Qed.

Lemma fst_fold_stack (rest : list (DataFrame value))
      (cs : list (string * list value)) :
  Forall (fun f => columns f = map fst cs) rest ->
  map fst (fold_left (fun acc f => stack acc (cols f)) rest cs) = map fst cs.
Proof.
  revert cs. induction rest as [|f rest IH]; intros cs H; [reflexivity|].
  inversion H as [|? ? Hf Hrest]; subst. cbn [fold_left].
  assert (Hs : map fst (stack cs (cols f)) = map fst cs)
    by (apply fst_stack; now rewrite <- Hf).
  rewrite IH; [exact Hs|]. now rewrite Hs.
Qed.

Lemma concat_columns (frames : list (DataFrame value)) (df : DataFrame value)
      (l : string) :
  concat VNaN frames = Ok df ->
  In l (columns df) <-> In l (flat_map columns frames).
Proof.
  unfold concat. destruct frames as [|f0 rest]; [discriminate|].
  destruct (forallb (fun f => labels_eqb (columns f) (columns f0)) rest) eqn:Eq.
  - intros [= <-].
    assert (Hlab : Forall (fun f => columns f = map fst (cols f0)) rest).
    { apply Forall_forall. intros f Hf. rewrite forallb_forall in Eq.
      apply labels_eqb_eq. exact (Eq f Hf). }
    unfold columns at 1. cbn [cols]. rewrite (fst_fold_stack rest _ Hlab).
    fold (columns f0). cbn [flat_map]. rewrite in_app_iff.
    split; [intros H; now left|].
    intros [H | H]; [exact H|]. apply in_flat_map in H as [f [Hf Hl]].
    rewrite Forall_forall in Hlab. now rewrite (Hlab f Hf) in Hl.
  - destruct (forallb _ (f0 :: rest)); [|discriminate].
    intros [= <-]. unfold columns at 1. cbn [cols]. rewrite map_map.
    cbn [fst]. rewrite map_id. unfold union_labels.
    rewrite fold_union_In. cbn [In].
    split; [intros [[] | H]; exact H | intros H; now right].
Qed.

(** X16.  The columns of the frame that [scrape_all] returns are the
    columns that occur in the tables of the periods, [year] among them:
    concatenation drops no field and adds none. *)
Theorem scrape_all_columns (years : list Z) (st : session)
        (df : DataFrame value) :
  fst (scrape_all years st) = Ok df ->
  forall l,
    In l (columns df) <->
    exists f, In f (collected read_html web (Winners.loads st) years)
              /\ In l (columns f).
Proof.
  intros H l.
  pose proof (scrape_all_run float64 read_html web years st) as Hrun.
  cbn zeta in Hrun.
  destruct (loop_outcome read_html web (Winners.loads st) years []) as [fs|e]
    eqn:E; destruct Hrun as [Hres _]; rewrite Hres in H; [|discriminate].
  apply loop_outcome_collected in E as [-> _]. cbn [app] in *.
  rewrite <- in_flat_map.
  destruct (collected read_html web (Winners.loads st) years) as [|f fs] eqn:Ec.
  - injection H as <-. reflexivity.
  - now apply concat_columns.
Qed.

Lemma winners_main_unfold (st : session) :
  main st
  = match scrape_all (Winners.range 1950 2025) st with
    | (Raise e, s') => (Raise e, s')
    | (Ok df, s') =>
        if negb (empty df)
        then match Winners.clean_data parse_numeric str_of_float df with
             | Raise e => (Raise e, s')
             | Ok c =>
                 (Ok tt,
                  Winners.mkSession (Winners.loads s') (Winners.page s')
                    (Winners.log s'
                     ++ [ToCsv ".csv" c; Print "SAVED: '.csv'."]))
             end
        else (Ok tt,
              Winners.mkSession (Winners.loads s') (Winners.page s')
                (Winners.log s' ++ [Print "No data found."]))
    end.
Proof.
  unfold Winners.main, Winners.bind, Winners.to_csv, Winners.print,
    Winners.emit, Winners.lift.
  destruct (Winners.scrape_all read_html web (Winners.range 1950 2025) st)
    as [[df|e] s']; [|reflexivity].
  destruct (negb (empty df)); [|reflexivity].
  destruct (Winners.clean_data parse_numeric str_of_float df); [|reflexivity].
  cbn [Winners.loads Winners.page Winners.log]. now rewrite <- app_assoc.
Qed.

(** X15.  A run of [main] logs the start of the driver, the events of
    the periods, and then one of four endings.  Nothing more when a
    period raised.  The stop of the driver alone when [pd.concat] or
    [clean_data] raised.  The stop and "No data found." when the frame
    is empty, which it also is when the tables found have no rows.
    Otherwise the stop, one [to_csv] of the cleaned frame to '.csv' and
    "SAVED: '.csv'.": a file is written once at most, and only after the
    driver was stopped. *)
Theorem winners_main_trace (st : session) :
  exists evs ending,
    forallb (@quiet float64) evs = true
    /\ Winners.log (snd (main st))
       = Winners.log st ++ [Launch] ++ evs ++ ending
    /\ ((ending = [] /\ exists e, fst (main st) = Raise e)
        \/ (ending = [Quit] /\ exists e, fst (main st) = Raise e)
        \/ (ending = [Quit; Print "No data found."]
            /\ fst (main st) = Ok tt
            /\ exists df,
                fst (scrape_all (Winners.range 1950 2025) st) = Ok df
                /\ empty df = true)
        \/ (exists df c,
               ending = [Quit; ToCsv ".csv" c; Print "SAVED: '.csv'."]
               /\ fst (main st) = Ok tt
               /\ fst (scrape_all (Winners.range 1950 2025) st) = Ok df
               /\ empty df = false
               /\ Winners.clean_data parse_numeric str_of_float df = Ok c)).
Proof.
  exists (loop_events read_html web (Winners.loads st) (Winners.range 1950 2025)).
  pose proof (scrape_all_run float64 read_html web (Winners.range 1950 2025) st)
    as Hrun.
  cbn zeta in Hrun. rewrite winners_main_unfold.
  destruct (scrape_all (Winners.range 1950 2025) st) as [r s'].
  cbn [fst snd] in Hrun.
  destruct (loop_outcome read_html web (Winners.loads st)
              (Winners.range 1950 2025) []) as [frames|e0].
  - destruct Hrun as [Hres Hlog]. destruct r as [df|e].
    + destruct (empty df) eqn:Hempty; cbn [negb].
      * exists [Quit; Print "No data found."].
        split; [apply loop_events_quiet|]. cbn [fst snd Winners.log].
        split; [rewrite Hlog; now rewrite <- !app_assoc|].
        right. right. left. repeat split. now exists df.
      * destruct (Winners.clean_data parse_numeric str_of_float df)
          as [c|e] eqn:Ec.
        -- exists [Quit; ToCsv ".csv" c; Print "SAVED: '.csv'."].
           split; [apply loop_events_quiet|]. cbn [fst snd Winners.log].
           split; [rewrite Hlog; now rewrite <- !app_assoc|].
           right. right. right. exists df, c. now repeat split.
        -- exists [Quit]. split; [apply loop_events_quiet|]. cbn [fst snd].
           split; [exact Hlog|]. right. left. split; [reflexivity | eauto].
    + exists [Quit]. split; [apply loop_events_quiet|]. cbn [fst snd].
      split; [exact Hlog|]. right. left. split; [reflexivity | eauto].
  - destruct Hrun as [Hres Hlog]. subst r. exists [].
    split; [apply loop_events_quiet|]. cbn [fst snd].
    split; [rewrite Hlog; now rewrite app_nil_r|].
    left. split; [reflexivity | eauto].
Qed.

End MoreRunning.

(** On the sample web, whose two pages both load, two periods take two
    page loads and two pauses. *)
Lemma scrape_all_one_load_per_period_witness :
  all_periods_return Sample.read_html Sample.web_2020_2021 0 [2020%Z; 2021%Z]
  /\ Winners.loads (snd (Winners.scrape_all Sample.read_html
                           Sample.web_2020_2021 [2020%Z; 2021%Z] Sample.start))
     = 2
  /\ Trace.gets (Winners.log (snd (Winners.scrape_all Sample.read_html
                                     Sample.web_2020_2021 [2020%Z; 2021%Z]
                                     Sample.start)))
     = 2.
Proof.
  assert (Hall : all_periods_return Sample.read_html Sample.web_2020_2021 0
                   [2020%Z; 2021%Z]).
  { cbn. repeat split; eauto. }
  split; [exact Hall|].
  destruct (scrape_all_one_load_per_period Sample.float64 Sample.read_html
              Sample.web_2020_2021 [2020%Z; 2021%Z] Sample.start Hall)
    as (H1 & H2 & _).
  split; [exact H1 | exact H2].
Defined.

(** On the sample web the third page load fails: a run over four
    periods ends there, and 2023 is never loaded. *)
Lemma scrape_all_stops_at_first_failure_witness :
  all_periods_return Sample.read_html Sample.web_2020_2021 0 [2020%Z; 2021%Z]
  /\ period_outcome Sample.read_html Sample.web_2020_2021 2 2022
     = Raise WebDriverException
  /\ fst (Winners.scrape_all Sample.read_html Sample.web_2020_2021
            [2020%Z; 2021%Z; 2022%Z; 2023%Z] Sample.start)
     = Raise WebDriverException
  /\ Trace.gets (Winners.log (snd (Winners.scrape_all Sample.read_html
                                     Sample.web_2020_2021
                                     [2020%Z; 2021%Z; 2022%Z; 2023%Z]
                                     Sample.start)))
     = 3.
Proof.
  assert (Hall : all_periods_return Sample.read_html Sample.web_2020_2021 0
                   [2020%Z; 2021%Z]).
  { cbn. repeat split; eauto. }
  split; [exact Hall|]. split; [reflexivity|].
  destruct (scrape_all_stops_at_first_failure Sample.float64 Sample.read_html
              Sample.web_2020_2021 [2020%Z; 2021%Z] [2023%Z] 2022
              WebDriverException Sample.start Hall eq_refl)
    as (H1 & _ & H3 & _).
  split; [exact H1 | exact H3].
Defined.

(** On the sample web the run returns the two rows of the 2021 table. *)
Lemma scrape_all_row_count_witness :
  (forall t frames, Sample.read_html t = Ok frames -> Forall wf frames)
  /\ exists df,
      fst (Winners.scrape_all Sample.read_html Sample.web_2020_2021
             [2020%Z; 2021%Z] Sample.start) = Ok df
      /\ wf df /\ nrows df = 2.
Proof.
  split; [exact Claims.sample_read_html_wf|]. eexists.
  assert (H : fst (Winners.scrape_all Sample.read_html Sample.web_2020_2021
                     [2020%Z; 2021%Z] Sample.start) = Ok _) by reflexivity.
  split; [exact H|].
  destruct (scrape_all_row_count Sample.float64 Sample.read_html
              Sample.web_2020_2021 [2020%Z; 2021%Z] Sample.start _
              Claims.sample_read_html_wf H) as (H1 & H2 & _).
  split; [exact H1 | exact H2].
Defined.

(** On the sample web the result has the four columns of the 2021
    table and [year]. *)
Lemma scrape_all_columns_witness :
  fst (Winners.scrape_all Sample.read_html Sample.web_2020_2021
         [2020%Z; 2021%Z] Sample.start)
  = Ok (setitem_scalar "year" (Winners.VNum (Winners.NInt 2021))
          Sample.frame_2021)
  /\ (In "year"%string
         (columns (setitem_scalar "year" (Winners.VNum (Winners.NInt 2021))
                     Sample.frame_2021)) <->
      exists f,
        In f (collected Sample.read_html Sample.web_2020_2021 0
                [2020%Z; 2021%Z])
        /\ In "year"%string (columns f)).
Proof.
  assert (H : fst (Winners.scrape_all Sample.read_html Sample.web_2020_2021
                     [2020%Z; 2021%Z] Sample.start)
              = Ok (setitem_scalar "year" (Winners.VNum (Winners.NInt 2021))
                      Sample.frame_2021)) by reflexivity.
  split; [exact H|].
  exact (scrape_all_columns Sample.float64 Sample.read_html
           Sample.web_2020_2021 [2020%Z; 2021%Z] Sample.start _ H "year"%string).
Defined.

End Extras.
